(** * Gene-expression prediction from a gene regulatory network

    A shallow embedding of
    [src/evaluation/grn_models/gene_expression_prediction.py]:
    the data selector [_select_data], the per-target fitter [_fit_model] and
    the two orchestrator entry points
    [_compute_gene_expression_prediction] and
    [compute_gene_expression_prediction].

    The pandas, numpy, anndata, mudata and joblib operations the source calls
    are modelled by small executable functions; the regression estimator and
    the float arithmetic of numpy are interfaces (type classes), since the
    source only consumes them.  Identifiers of genes are strings.  A call
    returns a value or raises ([exc]); the estimator object, which [fit]
    updates in place, is passed from call to call.  Console output (the
    progress bar, the notice for a skipped target) is left out. *)

From stdpp Require Import base option list strings gmap.

Local Open Scope Z_scope.
Local Open Scope string_scope.
Local Open Scope list_scope.

(** ** Python values used as keys, and exceptions *)

(** A column label.  The source indexes tables by string literals and, through
    the positional call at line 179, by the boolean [verbose]. *)
Inductive label : Type :=
| LStr (s : string)
| LBool (b : bool).

#[global] Instance label_eq_dec : EqDecision label.
Proof. solve_decision. Defined.

Coercion LStr : string >-> label.

(** The exceptions raised by the source or by the library calls it makes. *)
Inductive exn : Type :=
| KeyError (key : label)
| ValueError (msg : string)
| TypeError (msg : string)
| AttributeError (msg : string)
| UndefinedVariableError (name : string).

(** Outcome of a call: a value, or a raised exception. *)
Inductive exc (A : Type) : Type :=
| Ok (a : A)
| Raise (e : exn).
Arguments Ok {A} a.
Arguments Raise {A} e.

#[global] Instance exc_ret : MRet exc := fun _ a => Ok a.
#[global] Instance exc_bind : MBind exc := fun _ _ f c =>
  match c with
  | Ok a => f a
  | Raise e => Raise e
  end.
#[global] Instance exc_fmap : FMap exc := fun _ _ f c =>
  match c with
  | Ok a => Ok (f a)
  | Raise e => Raise e
  end.

(** What the caller gets back when nothing was raised. *)
Definition returned {A} (c : exc A) : option A :=
  match c with
  | Ok a => Some a
  | Raise _ => None
  end.

(** ** pandas *)

Module pd.

Definition Series (A : Type) : Type := list A.

(** A frame is its columns in order, each a label and the cells of that
    column; all columns of a frame have the same number of cells and the
    labels are pairwise distinct. *)
Definition DataFrame (A : Type) : Type := list (label * Series A).

(** [df.columns] *)
Definition columns {A} (df : DataFrame A) : list label := df.*1.

(** [len(df)] *)
Definition n_rows {A} (df : DataFrame A) : nat :=
  match df with
  | [] => 0%nat
  | (_, s) :: _ => length s
  end.

(** The invariant of a frame: distinct labels, columns of one length. *)
Definition wf {A} (df : DataFrame A) : Prop :=
  NoDup (columns df) ∧ Forall (fun c => length c.2 = n_rows df) df.

(** [df[k]] *)
Fixpoint getitem {A} (df : DataFrame A) (k : label) : exc (Series A) :=
  match df with
  | [] => Raise (KeyError k)
  | (c, s) :: rest => if bool_decide (c = k) then Ok s else getitem rest k
  end.

(** [df[k] = s]: replaces the column labelled [k], or appends it. *)
Fixpoint setitem {A} (df : DataFrame A) (k : label) (s : Series A)
  : DataFrame A :=
  match df with
  | [] => [(k, s)]
  | (c, old) :: rest =>
      if bool_decide (c = k) then (c, s) :: rest
      else (c, old) :: setitem rest k s
  end.

(** [s[mask]]: boolean indexing. *)
Fixpoint compress {A} (mask : list bool) (s : Series A) : Series A :=
  match mask, s with
  | b :: mask', x :: s' =>
      if b then x :: compress mask' s' else compress mask' s'
  | _, _ => []
  end.

(** [df[mask]] *)
Definition loc_mask {A} (df : DataFrame A) (mask : list bool)
  : DataFrame A :=
  fmap (fun c => (c.1, compress mask c.2)) df.

(** [s == v] *)
Definition eq_scalar (s : Series string) (v : string) : list bool :=
  fmap (fun x => bool_decide (x = v)) s.

(** [s.unique()]: the distinct values in order of first appearance, found
    with the table [seen] of the values met so far. *)
Fixpoint unique_from (seen : list string) (s : Series string)
  : list string :=
  match s with
  | [] => []
  | x :: s' =>
      if bool_decide (x ∈ seen) then unique_from seen s'
      else x :: unique_from (x :: seen) s'
  end.

Definition unique (s : Series string) : list string := unique_from [] s.

(** [df.query("col == @v")] *)
Definition query_eq (df : DataFrame string) (col : string) (v : string)
  : exc (DataFrame string) :=
  match getitem df (LStr col) with
  | Ok s => Ok (loc_mask df (eq_scalar s v))
  | Raise _ => Raise (UndefinedVariableError col)
  end.

(** [df.at[i, k]], as an option. *)
Definition at_ {A} (df : DataFrame A) (i : nat) (k : label) : option A :=
  match getitem df k with
  | Ok s => s !! i
  | Raise _ => None
  end.

End pd.

(** ** numpy and anndata *)

(** The float arithmetic the source performs itself, at line 72:
    [np.mean((model.predict(X) - y) ** 2)]. *)
Class Float64 (num : Type) : Type := {
  np_subtract : num → num → num;
  np_square : num → num;
  np_mean : list num → num;
}.

(** A two-dimensional array; the shape is kept apart from the rows so that
    an array without rows still has a number of columns. *)
Record ndarray (num : Type) : Type := {
  shape : nat * nat;
  data : list (list num);
}.
Arguments shape {num} _.
Arguments data {num} _.

(** The slice of an [AnnData] the source reads: the feature index
    [adata.var.index], the number of samples, the default matrix [adata.X]
    (one row per sample, one entry per feature) and the named layers. *)
Record AnnData (num : Type) : Type := {
  var_index : list string;
  n_obs : nat;
  X : list (list num);
  layers : gmap string (list (list num));
}.
Arguments var_index {num} _.
Arguments n_obs {num} _.
Arguments X {num} _.
Arguments layers {num} _.

(** [np.where(mask)[0]] *)
Fixpoint nonzero_from (i : nat) (mask : list bool) : list nat :=
  match mask with
  | [] => []
  | b :: mask' =>
      if b then i :: nonzero_from (S i) mask' else nonzero_from (S i) mask'
  end.

Definition np_where (mask : list bool) : list nat := nonzero_from 0 mask.

(** [index.isin(values)] *)
Definition isin (index : list string) (values : list string) : list bool :=
  fmap (fun v => bool_decide (v ∈ values)) index.

(** [adata[:, idx].X] and [adata[:, idx].layers[layer]]: the columns [idx] of
    a matrix over the [n] samples of the dataset. *)
Definition take_columns {num} (n : nat) (idx : list nat)
  (m : list (list num)) : ndarray num :=
  {| shape := (n, length idx);
     data := fmap (fun row => omap (fun j => row !! j) idx) m |}.

(** [y.flatten()] *)
Definition flatten {num} (a : ndarray num) : list num := concat (data a).

(** [a - b] on one-dimensional arrays, with numpy's broadcasting. *)
Definition broadcast_subtract {num} `{Float64 num} (a b : list num)
  : exc (list num) :=
  if bool_decide (length a = length b) then Ok (zip_with np_subtract a b)
  else match a, b with
       | [x], _ => Ok (fmap (np_subtract x) b)
       | _, [y] => Ok (fmap (fun x => np_subtract x y) a)
       | _, _ => Raise (ValueError "operands could not be broadcast together")
       end.

(** ** The regression estimator *)

(** The estimator is consumed through [fit], [score] and [predict] only.
    [fit] updates the estimator object in place, so it returns the object
    after the call; [get_params] is the configuration the caller gave it. *)
Class Regressor (num model params : Type) : Type := {
  get_params : model → params;
  fit : model → ndarray num → list num → exc model;
  score : model → ndarray num → list num → exc num;
  predict : model → ndarray num → exc (list num);
}.

(** The contract of an estimator whose [fit] starts over from its
    configuration: what it learns depends on the configuration and on the
    data of this call, not on an earlier fit, and fitting leaves the
    configuration as it was. *)
Class RefitsFromScratch {num model params : Type}
  (R : Regressor num model params) : Prop := {
  fit_params : ∀ (m1 m2 : model) X y,
    get_params m1 = get_params m2 → fit m1 X y = fit m2 X y;
  fit_keeps_params : ∀ (m m' : model) X y,
    fit m X y = Ok m' → get_params m' = get_params m;
}.

(** ** The source *)

Section Source.
Context {num model params : Type}.
Context `{Float64 num} `{Regressor num model params}.

(** The dictionary returned at line 73, one per fitted target. *)
Record FitResult : Type := {
  target : string;
  r2 : num;
  mse : num;
  n_cells : nat;
  regulators : list string;
}.

(** A cell of the result table. *)
Inductive value : Type :=
| VStr (s : string)
| VFloat (x : num)
| VInt (n : Z)
| VArray (a : list string).

(** [_select_data], lines 20-50.  Defaults of the source:
    [source_key="tf"], [target_key="gene"], [layer=None],
    [return_regulators=False].  The arrays are dense in this model, so the
    two [toarray] conversions of lines 41-44 do nothing; [y] is a slice with
    two axes, so line 45 always flattens it. *)
Definition _select_data (grn : pd.DataFrame string) (adata : AnnData num)
  (target : string) (source_key target_key : label) (layer : option string)
  (return_regulators : bool)
  : exc (ndarray num * list num * option (list string)) :=
  target_col ← pd.getitem grn target_key;
  let sub_grn := pd.loc_mask grn (pd.eq_scalar target_col target) in
  regulators ← pd.getitem sub_grn source_key;
  let regulator_idx := np_where (isin (var_index adata) regulators) in
  let target_idx := np_where (pd.eq_scalar (var_index adata) target) in
  Xy ← match layer with
       | Some l =>
           match layers adata !! l with
           | None =>
               Raise (ValueError ("Layer " +:+ l +:+ " not found in adata."))
           | Some L =>
               Ok (take_columns (n_obs adata) regulator_idx L,
                   take_columns (n_obs adata) target_idx L)
           end
       | None =>
           Ok (take_columns (n_obs adata) regulator_idx (X adata),
               take_columns (n_obs adata) target_idx (X adata))
       end;
  let y := flatten Xy.2 in
  if return_regulators then Ok (Xy.1, y, Some regulators)
  else Ok (Xy.1, y, None).

(** [_fit_model], lines 53-73.  Defaults of the source: [min_regulators=1],
    [source_key="tf"], [target_key="gene"], [layer=None], [verbose=True].
    The result is [None] for a skipped target, and comes with the estimator
    object as the call leaves it.  The notice printed at line 68 is console
    output only and is not modelled. *)
Definition _fit_model (grn : pd.DataFrame string) (adata : AnnData num)
  (target : string) (model_ : model) (min_regulators : Z)
  (source_key target_key : label) (layer : option string) (verbose : bool)
  : exc (option FitResult * model) :=
  sel ← _select_data grn adata target source_key target_key layer true;
  let '(X, y, regs) := sel in
  match regs with
  | None =>
      Raise (ValueError "not enough values to unpack (expected 3, got 2)")
  | Some regulators =>
      let '(n_cells, n_regulators) := shape X in
      if bool_decide (Z.of_nat n_regulators < min_regulators) then
        Ok (None, model_)
      else
        fitted ← fit model_ X y;
        r2 ← score fitted X y;
        pred ← predict fitted X;
        resid ← broadcast_subtract pred y;
        let mse := np_mean (fmap np_square resid) in
        Ok (Some {| target := target; r2 := r2; mse := mse;
                    n_cells := n_cells; regulators := regulators |},
            fitted)
  end.

(** *** joblib *)

(** A delayed call: given the estimator object it finds, it returns its
    result and the object as it leaves it. *)
Definition task (R : Type) : Type := model → exc (R * model).

(** Calls made one after the other on one estimator object. *)
Fixpoint run_batch {R} (tasks : list (task R)) (m : model)
  : exc (list R * model) :=
  match tasks with
  | [] => Ok ([], m)
  | t :: tasks' =>
      rm ← t m;
      rest ← run_batch tasks' rm.2;
      Ok (rm.1 :: rest.1, rest.2)
  end.

(** Calls sent to worker processes in batches of consecutive tasks.  The
    sizes of the batches, [sched], are chosen by the pool at run time.  Each
    batch is pickled with the arguments of its calls, so a batch works on its
    own copy of the caller's estimator object; the results come back in the
    order of the tasks.  When several calls raise, the pool raises the
    exception of the one that fails first in time; this function takes the
    first in the order of the tasks, so what is stated of a pooled run is
    stated of [returned], or of calls that all raise the same exception. *)
Fixpoint dispatch {R} (sched : list nat) (tasks : list (task R)) (m : model)
  : exc (list R) :=
  match sched with
  | [] => fst <$> run_batch tasks m
  | k :: sched' =>
      batch ← run_batch (take k tasks) m;
      rest ← dispatch sched' (drop k tasks) m;
      Ok (batch.1 ++ rest)
  end.

(** [Parallel(n_jobs=n_jobs)(tasks)]: in the calling process for
    [n_jobs = 1], where all the calls share the caller's estimator object,
    on the worker pool otherwise; [n_jobs = 0] is refused.  The value is the
    list of the results; what the calls did to the caller's estimator object
    is not part of it. *)
Definition Parallel {R} (n_jobs : Z) (sched : list nat)
  (tasks : list (task R)) (m : model) : exc (list R) :=
  if bool_decide (n_jobs = 0) then
    Raise (ValueError "n_jobs == 0 in Parallel has no meaning")
  else if bool_decide (n_jobs = 1) then fst <$> run_batch tasks m
  else dispatch sched tasks m.

(** *** The result table *)

(** [pd.DataFrame(results)] for a list of the dictionaries of line 73: no
    column at all for the empty list. *)
Definition DataFrame_of_records (results : list FitResult)
  : pd.DataFrame value :=
  match results with
  | [] => []
  | _ :: _ =>
      [ (LStr "target", fmap (fun r => VStr (target r)) results);
        (LStr "r2", fmap (fun r => VFloat (r2 r)) results);
        (LStr "mse", fmap (fun r => VFloat (mse r)) results);
        (LStr "n_cells", fmap (fun r => VInt (Z.of_nat (n_cells r))) results);
        (LStr "regulators", fmap (fun r => VArray (regulators r)) results) ]
  end.

(** [len(v)] *)
Definition len (v : value) : exc value :=
  match v with
  | VArray a => Ok (VInt (Z.of_nat (length a)))
  | VStr s => Ok (VInt (Z.of_nat (String.length s)))
  | VFloat _ => Raise (TypeError "object of type 'float' has no len()")
  | VInt _ => Raise (TypeError "object of type 'int' has no len()")
  end.

(** [s.apply(f)] *)
Definition apply {A B} (f : A → exc B) (s : pd.Series A)
  : exc (pd.Series B) := mapM f s.

(** [[r for r in results if r is not None]] *)
Definition not_None {A} (results : list (option A)) : list A :=
  omap id results.

(** [_compute_gene_expression_prediction], lines 76-126.  Defaults of the
    source: [min_regulators=1], [source_key="tf"], [target_key="gene"],
    [layer=None], [n_jobs=1], [verbose=True].  [sched] is the batching of the
    worker pool, which the source leaves to joblib. *)
Definition _compute_gene_expression_prediction (grn : pd.DataFrame string)
  (adata : AnnData num) (model_ : model) (min_regulators : Z)
  (source_key target_key : label) (layer : option string) (n_jobs : Z)
  (verbose : bool) (sched : list nat) : exc (pd.DataFrame value) :=
  target_col ← pd.getitem grn target_key;
  let targets := pd.unique target_col in
  results ← Parallel n_jobs sched
    (fmap (fun target m =>
            _fit_model grn adata target m min_regulators source_key
              target_key layer verbose) targets) model_;
  let results := DataFrame_of_records (not_None results) in
  regs ← pd.getitem results (LStr "regulators");
  n_regulators ← apply len regs;
  Ok (pd.setitem results (LStr "n_regulators") n_regulators).

(** *** The multi-modal store *)

(** What the source reads and writes of a [MuData]: the network tables and
    the datasets it holds by name, and the auxiliary namespace [uns].  The
    source takes [mdata[grn_key]] for a table and [mdata[data_key]] for a
    dataset; the two maps keep them apart by type. *)
Record MuData : Type := {
  mod_grn : gmap string (pd.DataFrame string);
  mod_data : gmap string (AnnData num);
  uns : gmap string (pd.DataFrame value);
}.

(** [mdata[key]] *)
Definition mod_getitem {A} (m : gmap string A) (key : string) : exc A :=
  match m !! key with
  | Some a => Ok a
  | None => Raise (KeyError (LStr key))
  end.

(** Lines 172-173: the edges of one cell type, when one is asked for. *)
Definition subset_celltype (grn : pd.DataFrame string)
  (celltype : option string) : exc (pd.DataFrame string) :=
  match celltype with
  | Some c => pd.query_eq grn "celltype" c
  | None => Ok grn
  end.

(** [mudata.MuData({grn_key: g, data_key: d})], line 168.  The constructor
    takes datasets: given the network table, which the rest of the function
    needs under [grn_key], it reads the attribute [obs_names] of the table
    and raises. *)
Definition MuData_of_modalities (grn_key : string) (g : pd.DataFrame string)
  (data_key : string) (d : AnnData num) : exc MuData :=
  Raise (AttributeError "'DataFrame' object has no attribute 'obs_names'").

(** [compute_gene_expression_prediction], lines 129-190.  Defaults of the
    source: [grn_key="grn"], [celltype=None], [data_key="rna"],
    [min_regulators=1], [n_jobs=1], [verbose=True], [inplace=True].
    The outcome is the caller's store as the call leaves it and the value
    returned, which is [None] when the table is written in place. *)
Definition compute_gene_expression_prediction (mdata : MuData)
  (grn_key : string) (celltype : option string) (data_key : string)
  (model_ : model) (min_regulators : Z) (n_jobs : Z) (verbose : bool)
  (inplace : bool) (sched : list nat)
  : exc (MuData * option (pd.DataFrame value)) :=
  local ← (if inplace then Ok mdata
           else
             g ← mod_getitem (mod_grn mdata) grn_key;
             d ← mod_getitem (mod_data mdata) data_key;
             MuData_of_modalities grn_key g data_key d);
  grn ← mod_getitem (mod_grn local) grn_key;
  grn ← subset_celltype grn celltype;
  adata ← mod_getitem (mod_data local) data_key;
  target_col ← pd.getitem grn (LStr "target");
  let targets := pd.unique target_col in
  results ← Parallel n_jobs sched
    (fmap (fun target m =>
            _fit_model grn adata target m min_regulators (LBool verbose)
              (LStr "gene") None true) targets) model_;
  let results := DataFrame_of_records (not_None results) in
  if inplace then
    Ok ({| mod_grn := mod_grn mdata; mod_data := mod_data mdata;
           uns := <[ "gene_expression_prediction" := results ]> (uns mdata) |},
        None)
  else Ok (mdata, Some results).

End Source.

Arguments FitResult : clear implicits.
Arguments task : clear implicits.
Arguments value : clear implicits.
Arguments MuData : clear implicits.

(** ** Vocabulary of the statements *)

(** The text of the exception raised at line 35. *)
Definition layer_not_found (l : string) : exn :=
  ValueError ("Layer " +:+ l +:+ " not found in adata.").

(** A matrix of [n] samples over [k] features. *)
Definition wf_matrix {num} (n k : nat) (M : list (list num)) : Prop :=
  length M = n ∧ Forall (fun row => length row = k) M.

(** The invariant of a dataset: the default matrix and every layer have one
    row per sample and one entry per feature. *)
Definition wf_adata {num} (adata : AnnData num) : Prop :=
  wf_matrix (n_obs adata) (length (var_index adata)) (X adata) ∧
  ∀ l L, layers adata !! l = Some L →
    wf_matrix (n_obs adata) (length (var_index adata)) L.

Section Vocabulary.
Context {num model params : Type}.
Context `{R : Regressor num model params}.

(** [ran t r]: the call [t], on some estimator object, returned [r]. *)
Definition ran {A} (t : task model A) (r : A) : Prop :=
  ∃ m m', t m = Ok (r, m').

(** The table the orchestrator returns, written out: the five columns of
    the collected rows and the derived column, for at least one row. *)
Definition table_of_rows (rs : list (FitResult num))
  : pd.DataFrame (value num) :=
  [ (LStr "target", fmap (fun r => VStr (target r)) rs);
    (LStr "r2", fmap (fun r => VFloat (r2 r)) rs);
    (LStr "mse", fmap (fun r => VFloat (mse r)) rs);
    (LStr "n_cells", fmap (fun r => VInt (Z.of_nat (n_cells r))) rs);
    (LStr "regulators", fmap (fun r => VArray (regulators r)) rs);
    (LStr "n_regulators",
      fmap (fun r => VInt (Z.of_nat (length (regulators r)))) rs) ].

(** A call respects the configuration of the estimator when its outcome
    depends on the estimator object through the configuration only, and it
    leaves the configuration as it found it. *)
Definition respects {A} (t : task model A) : Prop :=
  ∀ m1 m2, get_params m1 = get_params m2 →
    match t m1, t m2 with
    | Ok (r1, m1'), Ok (r2, m2') =>
        r1 = r2 ∧ get_params m1' = get_params m1 ∧
        get_params m2' = get_params m2
    | Raise e1, Raise e2 => e1 = e2
    | _, _ => False
    end.

End Vocabulary.

(** ** Concrete inputs *)

(** A small instance of the interfaces, over integers, and the networks,
    datasets and stores the examples below are evaluated on. *)
Module Sample.

#[global] Instance int_ops : Float64 Z := {|
  np_subtract := Z.sub;
  np_square := fun x => x * x;
  np_mean := fun l => foldr Z.add 0 l `div` Z.of_nat (length l);
|}.

(** An estimator that predicts the mean of the target values it was last
    fitted on, whatever it had learnt before.  Its state is that mean. *)
#[global] Instance mean_regressor : Regressor Z (option Z) unit := {|
  get_params := fun _ => tt;
  fit := fun _ X y =>
    if bool_decide (X.(shape).1 = length y) then
      Ok (Some (foldr Z.add 0 y `div` Z.of_nat (length y)))
    else Raise (ValueError "inconsistent numbers of samples");
  score := fun m _ _ =>
    match m with
    | Some _ => Ok 0
    | None => Raise (ValueError "this estimator is not fitted yet")
    end;
  predict := fun m X =>
    match m with
    | Some mu => Ok (replicate X.(shape).1 mu)
    | None => Raise (ValueError "this estimator is not fitted yet")
    end;
|}.

(** An estimator that keeps what it learnt from one fit to the next: it
    predicts the mean of all the target values it has ever been fitted on. *)
#[global] Instance running_mean_regressor : Regressor Z (list Z) unit := {|
  get_params := fun _ => tt;
  fit := fun seen X y =>
    if bool_decide (X.(shape).1 = length y) then Ok (seen ++ y)
    else Raise (ValueError "inconsistent numbers of samples");
  score := fun _ _ _ => Ok 0;
  predict := fun seen X =>
    Ok (replicate X.(shape).1
          (foldr Z.add 0 seen `div` Z.of_nat (length seen)));
|}.

(** Four features over two samples. *)
Definition adata : AnnData Z := {|
  var_index := ["A"; "B"; "C"; "G"];
  n_obs := 2;
  X := [[1; 2; 3; 4]; [5; 6; 7; 10]];
  layers := ∅;
|}.

(** The edges A→G, B→G, C→G. *)
Definition grn : pd.DataFrame string :=
  [ (LStr "tf", ["A"; "B"; "C"]); (LStr "gene", ["G"; "G"; "G"]) ].

(** A table with the two columns and no edge. *)
Definition grn_empty : pd.DataFrame string :=
  [ (LStr "tf", []); (LStr "gene", []) ].

(** The edges A→G and Z→G, where Z is not a feature of [adata]. *)
Definition grn_unresolved : pd.DataFrame string :=
  [ (LStr "tf", ["A"; "Z"]); (LStr "gene", ["G"; "G"]) ].

(** The edge A→G listed for two cell types. *)
Definition grn_repeated : pd.DataFrame string :=
  [ (LStr "tf", ["A"; "A"]); (LStr "gene", ["G"; "G"]);
    (LStr "celltype", ["T"; "B"]) ].

(** A→G, B→G and A→C: with [min_regulators = 2] only G has enough. *)
Definition grn_two_targets : pd.DataFrame string :=
  [ (LStr "tf", ["A"; "B"; "A"]); (LStr "gene", ["G"; "G"; "C"]) ].

(** A network that names its target column both ways. *)
Definition grn_target : pd.DataFrame string :=
  [ (LStr "tf", ["A"; "B"]); (LStr "gene", ["G"; "G"]);
    (LStr "target", ["G"; "G"]) ].

(** The same with one more column, labelled by the boolean [True]. *)
Definition grn_true : pd.DataFrame string :=
  [ (LStr "tf", ["A"; "B"]); (LStr "gene", ["G"; "G"]);
    (LStr "target", ["G"; "G"]); (LBool true, ["A"; "B"]) ].

Definition store (g : pd.DataFrame string) : MuData Z := {|
  mod_grn := {[ "grn" := g ]};
  mod_data := {[ "rna" := adata ]};
  uns := ∅;
|}.

(** The edge A→G alone. *)
Definition grn_single : pd.DataFrame string :=
  [ (LStr "tf", ["A"]); (LStr "gene", ["G"]) ].

(** A→G and A→H, where H is not a feature of [adata]. *)
Definition grn_absent_target : pd.DataFrame string :=
  [ (LStr "tf", ["A"; "A"]); (LStr "gene", ["G"; "H"]) ].

(** A table with the columns [tf], [gene] and [target] and no edge. *)
Definition grn_target_empty : pd.DataFrame string :=
  [ (LStr "tf", []); (LStr "gene", []); (LStr "target", []) ].

(** The edge A→G for the cell types T and B. *)
Definition grn_celltypes : pd.DataFrame string :=
  [ (LStr "tf", ["A"; "A"]); (LStr "gene", ["G"; "G"]);
    (LStr "target", ["G"; "G"]); (LStr "celltype", ["T"; "B"]) ].

(** The edges A→G and B→G under the keys [tf] and [gene], with a column
    [target] that names another gene. *)
Definition grn_keys : pd.DataFrame string :=
  [ (LStr "tf", ["A"; "B"]); (LStr "gene", ["G"; "G"]);
    (LStr "target", ["C"; "C"]) ].

(** The table the orchestrator returns on [adata] for a network and a
    threshold, with the keys ["tf"] and ["gene"], in one process and with
    an unfitted estimator; the table without columns when it raises. *)
Definition table (g : pd.DataFrame string) (min_regulators : Z)
  : pd.DataFrame (value Z) :=
  default []
    (returned
       (_compute_gene_expression_prediction g adata (None : option Z)
          min_regulators (LStr "tf") (LStr "gene") None 1 true [])).

End Sample.

(** ** Properties *)

(** *** The exception monad *)

Lemma bind_Ok {A B} (c : exc A) (f : A → exc B) (b : B) :
  c ≫= f = Ok b → ∃ a, c = Ok a ∧ f a = Ok b.
Proof. destruct c as [a|e]; [eauto | discriminate]. Qed.

Lemma fmap_Ok {A B} (c : exc A) (f : A → B) (b : B) :
  f <$> c = Ok b → ∃ a, c = Ok a ∧ b = f a.
Proof.
  destruct c as [a|e]; [|discriminate].
  intros [= <-]. eauto.
Qed.

Lemma Ok_bind {A B} (a : A) (f : A → exc B) : Ok a ≫= f = f a.
Proof. reflexivity. Qed.

Lemma Raise_bind {A B} (e : exn) (f : A → exc B) : Raise e ≫= f = Raise e.
Proof. reflexivity. Qed.

(** Membership in a list that is written out. *)
Ltac in_list := rewrite ?elem_of_cons in *; tauto.

(** Splits a successful sequence of calls into its successful steps. *)
Ltac exc_inv H :=
  repeat match type of H with
         | _ ≫= _ = Ok _ =>
             let a := fresh "a" in
             let Ha := fresh "Ha" in
             apply bind_Ok in H as (a & Ha & H)
         end.

(** *** pandas *)

Lemma getitem_columns {A} (df : pd.DataFrame A) k :
  k ∈ pd.columns df ↔ ∃ s, pd.getitem df k = Ok s.
Proof.
  induction df as [|[c s] df IH]; simpl.
  - split; [intros Hk; inversion Hk | intros [s [=]]].
  - case_bool_decide as Hc; subst.
    + split; [eauto | intros _; left].
    + rewrite <- IH. unfold pd.columns. simpl. rewrite elem_of_cons.
      split; [intros [->|]; [congruence | done] | by right].
Qed.

Lemma getitem_missing {A} (df : pd.DataFrame A) k :
  k ∉ pd.columns df → pd.getitem df k = Raise (KeyError k).
Proof.
  induction df as [|[c s] df IH]; simpl; [done|].
  unfold pd.columns. simpl. rewrite not_elem_of_cons. intros [Hne Hk].
  rewrite bool_decide_eq_false_2 by congruence. by apply IH.
Qed.

Lemma getitem_elem_of {A} (df : pd.DataFrame A) k s :
  pd.getitem df k = Ok s → (k, s) ∈ df.
Proof.
  induction df as [|[c s'] df IH]; simpl; [done|].
  case_bool_decide; subst.
  - intros [= ->]. left.
  - intros. right. by apply IH.
Qed.

Lemma getitem_length {A} (df : pd.DataFrame A) k s :
  pd.wf df → pd.getitem df k = Ok s → length s = pd.n_rows df.
Proof.
  intros [_ Hlen] Hk. apply getitem_elem_of in Hk.
  rewrite Forall_forall in Hlen. by apply (Hlen (k, s)).
Qed.

Lemma columns_loc_mask {A} (df : pd.DataFrame A) mask :
  pd.columns (pd.loc_mask df mask) = pd.columns df.
Proof.
  unfold pd.columns, pd.loc_mask. induction df as [|[c s] df IH]; simpl;
    [done | by f_equal].
Qed.

Lemma getitem_loc_mask {A} (df : pd.DataFrame A) mask k :
  pd.getitem (pd.loc_mask df mask) k = pd.compress mask <$> pd.getitem df k.
Proof.
  induction df as [|[c s] df IH]; simpl; [done|].
  by case_bool_decide.
Qed.

(** Boolean indexing of the source column by the comparison of the target
    column keeps the source of every edge into the target, edge by edge. *)
Lemma compress_eq_scalar (sources targets : list string) (v : string) :
  pd.compress (pd.eq_scalar targets v) sources =
  (filter (fun e => e.2 = v) (zip sources targets)).*1.
Proof.
  revert sources. induction targets as [|t targets IH]; intros [|s sources];
    simpl; try done.
  rewrite filter_cons. simpl.
  case_bool_decide; case_decide; try done; simpl; by rewrite IH.
Qed.

Lemma unique_from_elem_of seen s x :
  x ∈ pd.unique_from seen s ↔ x ∈ s ∧ x ∉ seen.
Proof.
  revert seen. induction s as [|y s IH]; intros seen; simpl.
  - split; [intros Hx; inversion Hx | intros [Hx _]; inversion Hx].
  - case_bool_decide as Hy.
    + rewrite IH, elem_of_cons. split; [tauto|].
      intros [[->|] ?]; [done | tauto].
    + rewrite !elem_of_cons, IH, not_elem_of_cons.
      destruct (decide (x = y)) as [->|]; tauto.
Qed.

Lemma unique_elem_of s x : x ∈ pd.unique s ↔ x ∈ s.
Proof.
  unfold pd.unique. rewrite unique_from_elem_of.
  split; [tauto | split; [done | apply not_elem_of_nil]].
Qed.

Lemma unique_nil_inv s : pd.unique s = [] → s = [].
Proof.
  destruct s as [|x s]; [done|]. intros Hu.
  assert (x ∈ pd.unique (x :: s)) as Hx by (apply unique_elem_of; left).
  rewrite Hu in Hx. inversion Hx.
Qed.

Section Properties.
Context {num model params : Type}.
Context `{Float64 num} `{R : Regressor num model params}.

(** *** The worker pool *)

Lemma run_batch_ran {A} (tasks : list (task model A)) m rs m' :
  run_batch tasks m = Ok (rs, m') → Forall2 ran tasks rs.
Proof.
  revert m rs m'. induction tasks as [|t tasks IH]; simpl; intros m rs m' Hrun.
  - simplify_eq. constructor.
  - exc_inv Hrun. destruct a as [r m1], a0 as [rs1 m2]. simplify_eq/=.
    constructor; [by exists m, m1 | by eapply IH].
Qed.

Lemma dispatch_ran {A} sched (tasks : list (task model A)) m rs :
  dispatch sched tasks m = Ok rs → Forall2 ran tasks rs.
Proof.
  revert tasks rs. induction sched as [|k sched IH]; simpl; intros tasks rs Hd.
  - apply fmap_Ok in Hd as ([rs' m'] & Hrun & ->). by eapply run_batch_ran.
  - exc_inv Hd. destruct a as [rs1 m1]. simplify_eq/=.
    rewrite <- (take_drop k tasks). apply Forall2_app.
    + by eapply run_batch_ran.
    + by apply IH.
Qed.

Lemma Parallel_ran {A} n_jobs sched (tasks : list (task model A)) m rs :
  Parallel n_jobs sched tasks m = Ok rs → Forall2 ran tasks rs.
Proof.
  unfold Parallel. repeat case_bool_decide; [done | |apply dispatch_ran].
  intros ([rs' m'] & Hrun & ->)%fmap_Ok. by eapply run_batch_ran.
Qed.

Lemma run_batch_cons_Raise {A} (t : task model A) tasks m e :
  t m = Raise e → run_batch (t :: tasks) m = Raise e.
Proof. simpl. by intros ->. Qed.

(** A pool that is given at least one call, the first of which raises
    whatever object it runs on, raises that exception. *)
Lemma Parallel_first_raises {A} n_jobs sched (t : task model A) tasks m e :
  n_jobs ≠ 0 → (∀ m, t m = Raise e) →
  Parallel n_jobs sched (t :: tasks) m = Raise e.
Proof.
  intros Hn Ht. unfold Parallel.
  rewrite bool_decide_eq_false_2 by done.
  case_bool_decide; [by rewrite (run_batch_cons_Raise _ _ _ e)|].
  assert (∀ l : list (task model A), l ≠ [] → (∀ m, hd t l m = Raise e) →
            dispatch sched l m = Raise e) as Hgen.
  { induction sched as [|k sched IH]; intros l Hl Hhd.
    - destruct l as [|t' l]; [done|]. simpl in *. by rewrite Hhd.
    - destruct l as [|t' l]; [done|]. simpl in Hhd.
      destruct k as [|k]; simpl.
      + by rewrite (IH (t' :: l)).
      + by rewrite Hhd. }
  by apply (Hgen (t :: tasks)).
Qed.

Lemma Parallel_nil {A} n_jobs sched m :
  n_jobs ≠ 0 → Parallel (model := model) (R := A) n_jobs sched [] m = Ok [].
Proof.
  intros Hn. unfold Parallel. rewrite bool_decide_eq_false_2 by done.
  case_bool_decide; [done|].
  induction sched as [|k sched IH]; simpl; [done|].
  rewrite take_nil, drop_nil. simpl. by rewrite IH.
Qed.

(** *** The data selector and the fitter *)

(** The selector either raises or returns the regulators when asked to. *)
Lemma select_data_shape grn (adata : AnnData num) target sk tk layer X y
    regs :
  _select_data grn adata target sk tk layer true = Ok (X, y, regs) →
  (shape X).1 = n_obs adata ∧ ∃ regulators, regs = Some regulators.
Proof.
  unfold _select_data. intros Hsel. exc_inv Hsel.
  destruct a1 as [X' y']. simplify_eq/=. split; [|eauto].
  destruct layer as [l|]; [destruct (layers adata !! l)|]; by simplify_eq/=.
Qed.

(** A fitted target: the row carries the target, the number of samples of
    the dataset and the regulators the selector returned, and the feature
    matrix had enough columns. *)
Lemma fit_model_Some grn (adata : AnnData num) t m minr sk tk layer verbose
    r m' :
  _fit_model grn adata t m minr sk tk layer verbose = Ok (Some r, m') →
  target r = t ∧ n_cells r = n_obs adata ∧
  ∃ X y, _select_data grn adata t sk tk layer true =
           Ok (X, y, Some (regulators r)) ∧
         ¬ Z.of_nat (shape X).2 < minr.
Proof.
  unfold _fit_model. intros Hfit. exc_inv Hfit.
  destruct a as [[X y] regs].
  destruct (select_data_shape _ _ _ _ _ _ _ _ _ Ha) as [Hn [regulators ->]].
  destruct (shape X) as [n k] eqn:Hshape. simpl in *.
  case_bool_decide; [done|].
  exc_inv Hfit. simplify_eq/=. do 2 (split; [done|]).
  exists X, y. by rewrite Hshape.
Qed.

(** A skipped target: the feature matrix had too few columns. *)
Lemma fit_model_skip grn (adata : AnnData num) t m minr sk tk layer verbose
    X y regs :
  _select_data grn adata t sk tk layer true = Ok (X, y, Some regs) →
  Z.of_nat (shape X).2 < minr →
  _fit_model grn adata t m minr sk tk layer verbose = Ok (None, m).
Proof.
  unfold _fit_model. intros -> Hlt. simpl.
  destruct (shape X) as [n k]. simpl in *.
  by rewrite bool_decide_eq_true_2.
Qed.

Lemma fit_model_select_Raise grn (adata : AnnData num) t m minr sk tk layer
    verbose e :
  _select_data grn adata t sk tk layer true = Raise e →
  _fit_model grn adata t m minr sk tk layer verbose = Raise e.
Proof. unfold _fit_model. by intros ->. Qed.

Lemma length_nonzero_from i mask :
  length (nonzero_from i mask) = length (filter (fun b => b = true) mask).
Proof.
  revert i. induction mask as [|[] mask IH]; intros i; [done|..];
    cbn [nonzero_from].
  - rewrite filter_cons_True by done. simpl. by rewrite IH.
  - rewrite filter_cons_False by done. apply IH.
Qed.

Lemma length_where_isin index values :
  length (np_where (isin index values)) =
  length (filter (fun v => v ∈ values) index).
Proof.
  unfold np_where, isin. rewrite length_nonzero_from.
  induction index as [|v index IH]; [done|].
  rewrite fmap_cons, !filter_cons. case_bool_decide.
  - rewrite decide_True by done. rewrite decide_True by done.
    simpl. by rewrite IH.
  - rewrite decide_False by done. by rewrite (decide_False (P := _ ∈ _)).
Qed.

(** What the selector returns: the feature matrix has one row entry per
    feature of the dataset that is named among the regulators, and the
    regulators are the sources of the edges into the target, one per edge
    and in the order of the table. *)
Lemma select_data_regulators grn (adata : AnnData num) t sk tk layer X y
    regs sources targets :
  pd.getitem grn sk = Ok sources → pd.getitem grn tk = Ok targets →
  _select_data grn adata t sk tk layer true = Ok (X, y, Some regs) →
  regs = (filter (fun e => e.2 = t) (zip sources targets)).*1 ∧
  shape X = (n_obs adata,
             length (filter (fun v => v ∈ regs) (var_index adata))).
Proof.
  intros Hs Ht. unfold _select_data.
  rewrite Ht, Ok_bind, getitem_loc_mask, Hs. simpl.
  rewrite compress_eq_scalar. intros Hsel. exc_inv Hsel.
  destruct a as [X' y']. simplify_eq/=. split; [done|].
  rewrite <- length_where_isin.
  destruct layer as [l|]; [destruct (layers adata !! l)|]; by simplify_eq/=.
Qed.

(** *** The rows of the result table *)

Lemma elem_of_not_None {A} (results : list (option A)) r :
  r ∈ not_None results ↔ Some r ∈ results.
Proof.
  unfold not_None. rewrite list_elem_of_omap. split.
  - intros (o & Ho & Hid). unfold id in Hid. by subst.
  - intros Hr. by exists (Some r).
Qed.

Lemma apply_len_regulators (rs : list (FitResult num)) :
  apply (@len num) (fmap (fun r => VArray (regulators r)) rs) =
  Ok (fmap (fun r => VInt (Z.of_nat (length (regulators r)))) rs).
Proof.
  unfold apply. induction rs as [|r rs IH]; [done|].
  cbn in *. by rewrite IH.
Qed.

Lemma getitem_records_regulators (r : FitResult num) rs :
  pd.getitem (DataFrame_of_records (r :: rs)) (LStr "regulators") =
  Ok ((fun r => VArray (regulators r)) <$> r :: rs).
Proof. reflexivity. Qed.

Lemma setitem_records_n_regulators (r : FitResult num) rs :
  pd.setitem (DataFrame_of_records (r :: rs)) (LStr "n_regulators")
    ((fun r => VInt (Z.of_nat (length (regulators r)))) <$> r :: rs) =
  table_of_rows (r :: rs).
Proof. reflexivity. Qed.

(** What a successful run of the orchestrator went through. *)
Lemma compute_private_Ok grn (adata : AnnData num) m minr sk tk layer n_jobs
    verbose sched table :
  _compute_gene_expression_prediction grn adata m minr sk tk layer n_jobs
    verbose sched = Ok table →
  ∃ target_col results,
    pd.getitem grn tk = Ok target_col ∧
    Forall2 (fun t res => ∃ m0 m1,
               _fit_model grn adata t m0 minr sk tk layer verbose =
                 Ok (res, m1))
      (pd.unique target_col) results ∧
    not_None results ≠ [] ∧
    table = table_of_rows (not_None results).
Proof.
  unfold _compute_gene_expression_prediction. intros Hc. exc_inv Hc.
  exists a, a0. split; [done|]. split.
  { apply Parallel_ran in Ha0. rewrite Forall2_fmap_l in Ha0.
    eapply Forall2_impl; [exact Ha0|]. intros t res (m0 & m1 & ?); eauto. }
  destruct (not_None a0) as [|r rs] eqn:Hrs; [done|]. split; [done|].
  rewrite getitem_records_regulators in Ha1.
  assert (a1 = (fun r => VArray (regulators r)) <$> r :: rs) as ->
    by congruence.
  rewrite apply_len_regulators in Ha2.
  assert (a2 = (fun r => VInt (Z.of_nat (length (regulators r)))) <$> r :: rs)
    as -> by congruence.
  rewrite setitem_records_n_regulators in Hc. congruence.
Qed.

(** Every row of the returned table comes from the fit of one of the
    enumerated targets. *)
Lemma compute_private_rows grn (adata : AnnData num) m minr sk tk layer
    n_jobs verbose sched table :
  _compute_gene_expression_prediction grn adata m minr sk tk layer n_jobs
    verbose sched = Ok table →
  ∃ rs, rs ≠ [] ∧ table = table_of_rows rs ∧
    Forall (fun r => ∃ m0 m1,
              _fit_model grn adata (target r) m0 minr sk tk layer verbose =
                Ok (Some r, m1)) rs.
Proof.
  intros (target_col & results & _ & Hran & Hne & ->)%compute_private_Ok.
  exists (not_None results). do 2 (split; [done|]).
  apply Forall_forall. intros r Hr%elem_of_not_None.
  apply list_elem_of_lookup_1 in Hr as [i Hi].
  destruct (Forall2_lookup_r _ _ _ _ _ Hran Hi) as (t & _ & m0 & m1 & Hfit).
  destruct (fit_model_Some _ _ _ _ _ _ _ _ _ _ _ Hfit) as [-> _]. eauto.
Qed.

Lemma at_table_of_rows (rs : list (FitResult num)) i :
  pd.at_ (table_of_rows rs) i (LStr "target") =
    (fun r => VStr (target r)) <$> rs !! i ∧
  pd.at_ (table_of_rows rs) i (LStr "n_cells") =
    (fun r => VInt (Z.of_nat (n_cells r))) <$> rs !! i ∧
  pd.at_ (table_of_rows rs) i (LStr "regulators") =
    (fun r => VArray (regulators r)) <$> rs !! i ∧
  pd.at_ (table_of_rows rs) i (LStr "n_regulators") =
    (fun r => VInt (Z.of_nat (length (regulators r)))) <$> rs !! i.
Proof.
  repeat split; rewrite <- list_lookup_fmap; reflexivity.
Qed.

Lemma n_rows_table_of_rows (rs : list (FitResult num)) :
  pd.n_rows (table_of_rows rs) = length rs.
Proof. simpl. apply length_fmap. Qed.

(** *** Claims about the orchestrator [_compute_gene_expression_prediction] *)

(** C7 (shape invariant).  In every row of the table the orchestrator
    returns, [n_cells] is the number of samples of the dataset and
    [n_regulators] is the length of the row's [regulators] sequence. *)
Theorem shape_invariant grn (adata : AnnData num) m minr sk tk layer n_jobs
    verbose sched table i :
  _compute_gene_expression_prediction grn adata m minr sk tk layer n_jobs
    verbose sched = Ok table →
  (i < pd.n_rows table)%nat →
  pd.at_ table i (LStr "n_cells") = Some (VInt (Z.of_nat (n_obs adata))) ∧
  ∃ regs,
    pd.at_ table i (LStr "regulators") = Some (VArray regs) ∧
    pd.at_ table i (LStr "n_regulators") =
      Some (VInt (Z.of_nat (length regs))).
Proof.
  intros (rs & _ & -> & Hrows)%compute_private_rows.
  rewrite n_rows_table_of_rows. intros Hi.
  destruct (lookup_lt_is_Some_2 rs i Hi) as [r Hr].
  destruct (at_table_of_rows rs i) as (_ & -> & -> & ->). rewrite Hr. simpl.
  rewrite Forall_forall in Hrows.
  destruct (Hrows r) as (m0 & m1 & Hfit);
    [by eapply list_elem_of_lookup_2|].
  destruct (fit_model_Some _ _ _ _ _ _ _ _ _ _ _ Hfit) as (_ & -> & _).
  eauto.
Qed.

(** C3 (skip policy).  When the selector yields, for a target, a feature
    matrix with fewer than [min_regulators] columns, the fitter returns
    [None] without raising and leaves the estimator as it found it, and no
    row of a table returned by the orchestrator carries that target,
    whatever [n_jobs] and the batching of the pool. *)
Theorem skip_below_min_regulators grn (adata : AnnData num) t m minr sk tk
    layer verbose X y regs :
  _select_data grn adata t sk tk layer true = Ok (X, y, Some regs) →
  Z.of_nat (shape X).2 < minr →
  _fit_model grn adata t m minr sk tk layer verbose = Ok (None, m) ∧
  ∀ m0 n_jobs sched table i,
    _compute_gene_expression_prediction grn adata m0 minr sk tk layer n_jobs
      verbose sched = Ok table →
    pd.at_ table i (LStr "target") ≠ Some (VStr t).
Proof.
  intros Hsel Hlt. split; [by eapply fit_model_skip|].
  intros m0 n_jobs sched table i
    (rs & _ & -> & Hrows)%compute_private_rows Hat.
  destruct (at_table_of_rows rs i) as (Htarget & _). rewrite Htarget in Hat.
  destruct (rs !! i) as [r|] eqn:Hr; [|done]. simpl in Hat.
  rewrite Forall_forall in Hrows.
  destruct (Hrows r) as (m1 & m2 & Hfit);
    [by eapply list_elem_of_lookup_2|].
  assert (target r = t) as Ht by congruence. rewrite Ht in Hfit.
  by rewrite (fit_model_skip _ _ _ m1 _ _ _ _ verbose _ _ _ Hsel Hlt) in Hfit.
Qed.

Lemma unique_wf_nonempty (grn : pd.DataFrame string) k target_col :
  pd.wf grn → pd.n_rows grn ≠ 0%nat → pd.getitem grn k = Ok target_col →
  ∃ t ts, pd.unique target_col = t :: ts.
Proof.
  intros Hwf Hrows Hk. apply (getitem_length _ _ _ Hwf) in Hk.
  destruct (pd.unique target_col) as [|t ts] eqn:Hu; [|eauto].
  apply unique_nil_inv in Hu. subst. done.
Qed.

Lemma select_data_missing_layer grn (adata : AnnData num) t sk tk l rr :
  layers adata !! l = None →
  sk ∈ pd.columns grn → tk ∈ pd.columns grn →
  _select_data grn adata t sk tk (Some l) rr = Raise (layer_not_found l).
Proof.
  intros Hl [s Hs]%getitem_columns [c Hc]%getitem_columns.
  unfold _select_data. rewrite Hc. simpl.
  rewrite getitem_loc_mask, Hs. simpl. by rewrite Hl.
Qed.

(** C4 (missing layer).  When the requested layer is not on the dataset and
    the network table has the two key columns, every call of the selector
    raises the exception of line 35 (the [ValueError] that the specification
    calls LayerNotFoundError); the orchestrator then returns no table, and
    on a network with at least one row it raises that same exception. *)
Theorem missing_layer_aborts grn (adata : AnnData num) l sk tk :
  layers adata !! l = None →
  sk ∈ pd.columns grn → tk ∈ pd.columns grn →
  (∀ t rr,
     _select_data grn adata t sk tk (Some l) rr =
       Raise (layer_not_found l)) ∧
  (∀ m minr n_jobs verbose sched,
     returned (_compute_gene_expression_prediction grn adata m minr sk tk
                 (Some l) n_jobs verbose sched) = None) ∧
  (∀ m minr n_jobs verbose sched,
     pd.wf grn → pd.n_rows grn ≠ 0%nat → n_jobs ≠ 0 →
     _compute_gene_expression_prediction grn adata m minr sk tk (Some l)
       n_jobs verbose sched = Raise (layer_not_found l)).
Proof.
  intros Hl Hsk Htk.
  assert (∀ t rr, _select_data grn adata t sk tk (Some l) rr =
                    Raise (layer_not_found l)) as Hsel
    by (intros; by apply select_data_missing_layer).
  split; [done|]. split.
  - intros m minr n_jobs verbose sched.
    destruct (_compute_gene_expression_prediction _ _ _ _ _ _ _ _ _ _)
      as [table|e] eqn:Hc; [|done].
    apply compute_private_rows in Hc as (rs & Hne & _ & Hrows).
    destruct rs as [|r rs]; [done|].
    apply Forall_cons_1 in Hrows as [(m0 & m1 & Hfit) _].
    apply fit_model_Some in Hfit as (_ & _ & X & y & Hfit & _).
    by rewrite Hsel in Hfit.
  - intros m minr n_jobs verbose sched Hwf Hrows Hjobs.
    destruct (proj1 (getitem_columns grn tk) Htk) as [target_col Hcol].
    destruct (unique_wf_nonempty _ _ _ Hwf Hrows Hcol) as (t & ts & Hu).
    unfold _compute_gene_expression_prediction.
    rewrite Hcol, Ok_bind, Hu, fmap_cons.
    rewrite (Parallel_first_raises (A := option (FitResult num)) _ _ _ _ _
               (layer_not_found l)); [done..|].
    intros m0. apply fit_model_select_Raise, Hsel.
Qed.

(** A network without rows: the orchestrator returns no table. *)
Lemma compute_private_zero_rows grn (adata : AnnData num) m minr sk tk layer
    n_jobs verbose sched :
  pd.wf grn → pd.n_rows grn = 0%nat →
  returned (_compute_gene_expression_prediction grn adata m minr sk tk layer
              n_jobs verbose sched) = None.
Proof.
  intros Hwf Hrows.
  destruct (_compute_gene_expression_prediction _ _ _ _ _ _ _ _ _ _)
    as [table|e] eqn:Hc; [|done].
  apply compute_private_Ok in Hc
    as (target_col & results & Hcol & Hran & Hne & _).
  apply (getitem_length _ _ _ Hwf) in Hcol. rewrite Hrows in Hcol.
  destruct target_col; [|done]. by inversion Hran; subst.
Qed.

(** The exception is the failed lookup of the column [regulators] in the
    result table, which has no column when no row was collected. *)
Lemma compute_private_zero_rows_KeyError grn (adata : AnnData num) m minr sk
    tk layer n_jobs verbose sched :
  pd.wf grn → pd.n_rows grn = 0%nat → tk ∈ pd.columns grn → n_jobs ≠ 0 →
  _compute_gene_expression_prediction grn adata m minr sk tk layer n_jobs
    verbose sched = Raise (KeyError (LStr "regulators")).
Proof.
  intros Hwf Hrows [target_col Hcol]%getitem_columns Hjobs.
  pose proof (getitem_length _ _ _ Hwf Hcol) as Hlen. rewrite Hrows in Hlen.
  destruct target_col; [|done].
  unfold _compute_gene_expression_prediction. rewrite Hcol, Ok_bind.
  change (pd.unique []) with (@nil string). rewrite fmap_nil.
  by rewrite (Parallel_nil (A := option (FitResult num))).
Qed.

(** *** Claims about the entry point [compute_gene_expression_prediction] *)

Lemma mod_getitem_Some {A} (mods : gmap string A) key a :
  mods !! key = Some a → mod_getitem mods key = Ok a.
Proof. unfold mod_getitem. by intros ->. Qed.

Lemma mod_getitem_None {A} (mods : gmap string A) key :
  mods !! key = None → mod_getitem mods key = Raise (KeyError (LStr key)).
Proof. unfold mod_getitem. by intros ->. Qed.

Lemma select_data_missing_target grn (adata : AnnData num) t sk tk layer
    rr :
  tk ∉ pd.columns grn →
  _select_data grn adata t sk tk layer rr = Raise (KeyError tk).
Proof.
  intros Htk. unfold _select_data. by rewrite (getitem_missing _ _ Htk).
Qed.

Lemma select_data_missing_source grn (adata : AnnData num) t sk tk layer
    rr :
  tk ∈ pd.columns grn → sk ∉ pd.columns grn →
  _select_data grn adata t sk tk layer rr = Raise (KeyError sk).
Proof.
  intros [c Hc]%getitem_columns Hsk. unfold _select_data.
  rewrite Hc, Ok_bind, getitem_missing; [done|].
  by rewrite columns_loc_mask.
Qed.

(** Lines 175-182 on a network with at least one row and no column labelled
    by the boolean [verbose]: whatever follows the pool, a key lookup
    fails; it is the lookup of [verbose] when the columns ["target"] and
    ["gene"] are there. *)
Lemma positional_call_raises {B} grn (adata : AnnData num) m minr n_jobs
    sched verbose (rest : list (option (FitResult num)) → exc B) :
  pd.wf grn → pd.n_rows grn ≠ 0%nat → LBool verbose ∉ pd.columns grn →
  n_jobs ≠ 0 →
  ∃ k, k ∈ [LStr "target"; LStr "gene"; LBool verbose] ∧
    (LStr "target" ∈ pd.columns grn → LStr "gene" ∈ pd.columns grn →
     k = LBool verbose) ∧
    pd.getitem grn (LStr "target") ≫= (fun target_col =>
      Parallel n_jobs sched
        ((fun target m =>
            _fit_model grn adata target m minr (LBool verbose) (LStr "gene")
              None true) <$> pd.unique target_col) m ≫= rest)
    = Raise (KeyError k).
Proof.
  intros Hwf Hrows Hverbose Hjobs.
  destruct (decide (LStr "target" ∈ pd.columns grn)) as [Ht|Ht]; cycle 1.
  { exists (LStr "target"). split; [in_list|]. split; [done|].
    by rewrite (getitem_missing _ _ Ht). }
  apply getitem_columns in Ht as [target_col Hcol].
  destruct (unique_wf_nonempty _ _ _ Hwf Hrows Hcol) as (t & ts & Hu).
  rewrite Hcol, Ok_bind, Hu, fmap_cons.
  destruct (decide (LStr "gene" ∈ pd.columns grn)) as [Hg|Hg].
  - exists (LBool verbose). split; [in_list|]. split; [done|].
    rewrite (Parallel_first_raises (A := option (FitResult num)) _ _ _ _ _
               (KeyError (LBool verbose))); [done..|].
    intros m0. by apply fit_model_select_Raise, select_data_missing_source.
  - exists (LStr "gene"). split; [in_list|]. split; [done|].
    rewrite (Parallel_first_raises (A := option (FitResult num)) _ _ _ _ _
               (KeyError (LStr "gene"))); [done..|].
    intros m0. by apply fit_model_select_Raise, select_data_missing_target.
Qed.

(** Lines 171-182 on a store that holds the network and has the dataset
    entry of [mdata]. *)
Lemma public_body_raises {B} (mdata local : MuData num) grn_key celltype
    data_key m minr n_jobs sched verbose grn0 grn
    (rest : list (option (FitResult num)) → exc B) :
  mod_grn local !! grn_key = Some grn0 →
  mod_data local !! data_key = mod_data mdata !! data_key →
  subset_celltype grn0 celltype = Ok grn →
  pd.wf grn → pd.n_rows grn ≠ 0%nat → LBool verbose ∉ pd.columns grn →
  n_jobs ≠ 0 →
  ∃ k, k ∈ [LStr data_key; LStr "target"; LStr "gene"; LBool verbose] ∧
    (is_Some (mod_data mdata !! data_key) →
     LStr "target" ∈ pd.columns grn → LStr "gene" ∈ pd.columns grn →
     k = LBool verbose) ∧
    mod_getitem (mod_grn local) grn_key ≫= (fun grn =>
      subset_celltype grn celltype ≫= fun grn =>
      mod_getitem (mod_data local) data_key ≫= fun adata =>
      pd.getitem grn (LStr "target") ≫= fun target_col =>
      Parallel n_jobs sched
        ((fun target m =>
            _fit_model grn adata target m minr (LBool verbose) (LStr "gene")
              None true) <$> pd.unique target_col) m ≫= rest)
    = Raise (KeyError k).
Proof.
  intros Hg Hd Hsub Hwf Hrows Hverbose Hjobs. unfold mod_getitem.
  rewrite Hg, Ok_bind, Hsub, Ok_bind, Hd.
  destruct (mod_data mdata !! data_key) as [adata|].
  - rewrite Ok_bind.
    destruct (positional_call_raises grn adata m minr n_jobs sched verbose
                rest Hwf Hrows Hverbose Hjobs) as (k & Hk & Hkv & Hraise).
    exists k. split; [in_list|]. split; [auto|done].
  - exists (LStr data_key). split; [in_list|].
    split; [by intros [? [=]]|done].
Qed.

(** C10 (positional call).  The call at line 179 passes [verbose] where the
    fitter expects [source_key] and leaves [target_key] at ["gene"].  So,
    when the network the targets are enumerated from (the table under
    [grn_key], after the optional subsetting by cell type) has at least one
    row and no column labelled by the boolean [verbose], the call in place
    (the default) raises a [KeyError] and returns no table.  The key is the
    dataset key or one of the columns ["target"], ["gene"] and [verbose];
    it is [verbose] when the dataset and the columns ["target"] and
    ["gene"] are there.  (Not in place, the constructor of line 168 raises
    before any column is looked up.) *)
Theorem positional_call_raises_KeyError (mdata : MuData num) grn_key celltype
    data_key m minr n_jobs verbose sched grn0 grn :
  mod_grn mdata !! grn_key = Some grn0 →
  subset_celltype grn0 celltype = Ok grn →
  pd.wf grn → pd.n_rows grn ≠ 0%nat →
  LBool verbose ∉ pd.columns grn →
  n_jobs ≠ 0 →
  ∃ k, k ∈ [LStr data_key; LStr "target"; LStr "gene"; LBool verbose] ∧
    (is_Some (mod_data mdata !! data_key) →
     LStr "target" ∈ pd.columns grn → LStr "gene" ∈ pd.columns grn →
     k = LBool verbose) ∧
    compute_gene_expression_prediction mdata grn_key celltype data_key m
      minr n_jobs verbose true sched = Raise (KeyError k).
Proof.
  intros Hgrn Hsub Hwf Hrows Hverbose Hjobs.
  unfold compute_gene_expression_prediction.
  rewrite Ok_bind. by eapply public_body_raises.
Qed.

Lemma columns_DataFrame_of_records (rs : list (FitResult num)) :
  LStr "n_regulators" ∉ pd.columns (DataFrame_of_records rs).
Proof.
  destruct rs as [|r rs]; unfold pd.columns; simpl.
  - apply not_elem_of_nil.
  - rewrite !not_elem_of_cons. repeat split; try done. apply not_elem_of_nil.
Qed.

(** The table this entry point returns, or writes under the reserved key,
    never has the column [n_regulators]. *)
Lemma compute_public_table (mdata : MuData num) grn_key celltype data_key m
    minr n_jobs verbose inplace sched mdata' ret :
  compute_gene_expression_prediction mdata grn_key celltype data_key m minr
    n_jobs verbose inplace sched = Ok (mdata', ret) →
  ∃ table, (LStr "n_regulators" ∉ pd.columns table) ∧
    (if inplace then
       ret = None ∧
       uns mdata' !! "gene_expression_prediction" = Some table
     else ret = Some table ∧ mdata' = mdata).
Proof.
  unfold compute_gene_expression_prediction. intros Hc. exc_inv Hc.
  exists (DataFrame_of_records (not_None a4)).
  split; [apply columns_DataFrame_of_records|].
  destruct inplace; simplify_eq/=; [|done].
  split; [done | apply lookup_insert_eq].
Qed.

(** *** Independence of the batching *)

Section Determinism.
Context {refits : RefitsFromScratch R}.

Lemma fit_model_respects grn (adata : AnnData num) t minr sk tk layer
    verbose :
  respects (fun m => _fit_model grn adata t m minr sk tk layer verbose).
Proof.
  intros m1 m2 Hp. unfold _fit_model.
  destruct (_select_data grn adata t sk tk layer true)
    as [[[X y] [regs|]]|e]; simpl; try done.
  destruct (shape X) as [n k]. case_bool_decide; [done|].
  rewrite (fit_params m1 m2 X y Hp).
  destruct (fit m2 X y) as [m'|e] eqn:Hfit; simpl; [|done].
  destruct (score m' X y) as [s|e]; simpl; [|done].
  destruct (predict m' X) as [p|e]; simpl; [|done].
  destruct (broadcast_subtract p y) as [d|e]; simpl; [|done].
  split; [done|]. rewrite (fit_keeps_params _ _ _ _ Hfit). by rewrite Hp.
Qed.

Lemma run_batch_respects {A} (tasks : list (task model A)) m1 m2 :
  Forall respects tasks → get_params m1 = get_params m2 →
  match run_batch tasks m1, run_batch tasks m2 with
  | Ok (rs1, m1'), Ok (rs2, m2') =>
      rs1 = rs2 ∧ get_params m1' = get_params m1 ∧
      get_params m2' = get_params m2
  | Raise e1, Raise e2 => e1 = e2
  | _, _ => False
  end.
Proof.
  intros Htasks. revert m1 m2.
  induction Htasks as [|t tasks Ht _ IH]; intros m1 m2 Hp; simpl; [done|].
  specialize (Ht m1 m2 Hp).
  destruct (t m1) as [[r1 m1']|e1], (t m2) as [[r2 m2']|e2]; simpl;
    try done.
  destruct Ht as (-> & Hp1 & Hp2).
  specialize (IH m1' m2' ltac:(congruence)).
  destruct (run_batch tasks m1') as [[rs1 m1'']|e1],
    (run_batch tasks m2') as [[rs2 m2'']|e2]; simpl; try done.
  destruct IH as (-> & Hq1 & Hq2). split; [done|]. split; congruence.
Qed.

Lemma run_batch_app {A} (tasks1 tasks2 : list (task model A)) m :
  run_batch (tasks1 ++ tasks2) m =
  b1 ← run_batch tasks1 m;
  b2 ← run_batch tasks2 b1.2;
  Ok (b1.1 ++ b2.1, b2.2).
Proof.
  revert m. induction tasks1 as [|t tasks1 IH]; intros m; simpl.
  - by destruct (run_batch tasks2 m) as [[rs m']|e].
  - destruct (t m) as [[r m1]|e]; simpl; [|done]. rewrite IH.
    destruct (run_batch tasks1 m1) as [[rs1 m2]|e]; simpl; [|done].
    by destruct (run_batch tasks2 m2) as [[rs2 m3]|e].
Qed.

(** Whatever the batches, the pool returns what one pass over the tasks on
    a single estimator object returns. *)
Lemma dispatch_run_batch {A} sched (tasks : list (task model A)) m :
  Forall respects tasks →
  dispatch sched tasks m = fst <$> run_batch tasks m.
Proof.
  revert tasks. induction sched as [|k sched IH]; intros tasks Htasks;
    simpl; [done|].
  replace (run_batch tasks m)
    with (run_batch (take k tasks ++ drop k tasks) m)
    by (by rewrite take_drop).
  rewrite run_batch_app.
  rewrite IH by by apply Forall_drop.
  pose proof (run_batch_respects (take k tasks) m m
                (Forall_take _ _ _ Htasks) eq_refl) as Hb.
  destruct (run_batch (take k tasks) m) as [[rs1 m1]|e]; simpl; [|done].
  destruct Hb as (_ & Hp & _).
  pose proof (run_batch_respects (drop k tasks) m m1
                (Forall_drop _ _ _ Htasks) (eq_sym Hp)) as Hd.
  destruct (run_batch (drop k tasks) m) as [[rs2 m2]|e2],
    (run_batch (drop k tasks) m1) as [[rs2' m2']|e2']; simpl in *;
    try done; [|congruence].
  by destruct Hd as (-> & _).
Qed.

Lemma Parallel_respects {A} n_jobs1 n_jobs2 sched1 sched2
    (tasks : list (task model A)) m1 m2 :
  Forall respects tasks → get_params m1 = get_params m2 →
  n_jobs1 ≠ 0 → n_jobs2 ≠ 0 →
  Parallel n_jobs1 sched1 tasks m1 = Parallel n_jobs2 sched2 tasks m2.
Proof.
  intros Htasks Hp Hn1 Hn2. unfold Parallel.
  rewrite !bool_decide_eq_false_2 by done.
  rewrite !dispatch_run_batch by done.
  pose proof (run_batch_respects tasks m1 m2 Htasks Hp) as Hb.
  assert (fst <$> run_batch tasks m1 = fst <$> run_batch tasks m2) as Heq.
  { destruct (run_batch tasks m1) as [[rs1 m1']|e1],
      (run_batch tasks m2) as [[rs2 m2']|e2]; simpl in *; try done;
      [by destruct Hb as (-> & _) | congruence]. }
  repeat case_bool_decide; done.
Qed.

(** C8 (determinism).  For an estimator that refits from scratch, a run
    with [n_jobs = 1] and a run with [n_jobs = 4] on the same network,
    dataset, threshold, keys and layer, with estimator objects of the same
    configuration, return the same table (or both return none), whatever
    the batching of the pool. *)
Theorem determinism_n_jobs grn (adata : AnnData num) m1 m4 minr sk tk layer
    verbose sched1 sched4 :
  get_params m1 = get_params m4 →
  returned (_compute_gene_expression_prediction grn adata m1 minr sk tk
              layer 1 verbose sched1) =
  returned (_compute_gene_expression_prediction grn adata m4 minr sk tk
              layer 4 verbose sched4).
Proof.
  intros Hp. unfold _compute_gene_expression_prediction.
  destruct (pd.getitem grn tk) as [target_col|e]; [|done].
  rewrite !Ok_bind.
  rewrite (Parallel_respects 1 4 sched1 sched4 _ m1 m4); [done| |done..].
  apply Forall_fmap, Forall_forall. intros t _. apply fit_model_respects.
Qed.

End Determinism.

End Properties.

(** ** Further properties of the source *)

Section MoreProperties.
Context {num model params : Type}.
Context `{Float64 num} `{R : Regressor num model params}.

(** *** The data selector *)

(** What a successful call of the selector went through. *)
Lemma select_data_inv grn (adata : AnnData num) t sk tk layer rr Xt y oregs :
  _select_data grn adata t sk tk layer rr = Ok (Xt, y, oregs) →
  ∃ sources targets M,
    pd.getitem grn sk = Ok sources ∧ pd.getitem grn tk = Ok targets ∧
    match layer with
    | Some l => layers adata !! l = Some M
    | None => M = X adata
    end ∧
    let regs := pd.compress (pd.eq_scalar targets t) sources in
    Xt = take_columns (n_obs adata)
          (np_where (isin (var_index adata) regs)) M ∧
    y = flatten (take_columns (n_obs adata)
                   (np_where (pd.eq_scalar (var_index adata) t)) M) ∧
    oregs = if rr then Some regs else None.
Proof.
  unfold _select_data. intros Hsel. exc_inv Hsel.
  rewrite getitem_loc_mask in Ha0.
  apply fmap_Ok in Ha0 as (sources & Hs & ->).
  destruct a1 as [X' y']. simpl in Hsel.
  assert (∃ M, match layer with
               | Some l => layers adata !! l = Some M
               | None => M = X adata
               end ∧
               X' = take_columns (n_obs adata)
                      (np_where (isin (var_index adata)
                         (pd.compress (pd.eq_scalar a t) sources))) M ∧
               y' = take_columns (n_obs adata)
                      (np_where (pd.eq_scalar (var_index adata) t)) M)
    as (M & HM & -> & ->).
  { destruct layer as [l|].
    - destruct (layers adata !! l) as [L|]; [|done].
      exists L. by simplify_eq.
    - eexists. by simplify_eq. }
  exists sources, a, M. do 3 (split; [done|]). simpl.
  destruct rr; by simplify_eq.
Qed.

(** X1.  The regulators the selector returns are the sources of the edges
    into the target, one entry per edge and in the order of the table:
    nothing is dropped, deduplicated or reordered. *)
Theorem regulators_are_edge_sources grn (adata : AnnData num) t sk tk layer
    Xt y regs sources targets :
  pd.getitem grn sk = Ok sources → pd.getitem grn tk = Ok targets →
  _select_data grn adata t sk tk layer true = Ok (Xt, y, Some regs) →
  regs = (filter (fun e => e.2 = t) (zip sources targets)).*1.
Proof.
  intros Hs Ht (sources' & targets' & M & Hs' & Ht' & _ & _ & _ & Hregs)
    %select_data_inv.
  rewrite Hs in Hs'. rewrite Ht in Ht'. simplify_eq.
  apply compress_eq_scalar.
Qed.

Lemma length_where_eq_scalar index (t : string) :
  length (np_where (pd.eq_scalar index t)) =
  length (filter (fun v => v = t) index).
Proof.
  unfold np_where, pd.eq_scalar. rewrite length_nonzero_from.
  induction index as [|v index IH]; [done|].
  rewrite fmap_cons, !filter_cons. case_bool_decide.
  - rewrite decide_True by done. rewrite decide_True by done.
    cbn [length]. f_equal. exact IH.
  - rewrite decide_False by done. by rewrite (decide_False (P := _ = _)).
Qed.

(** X2.  The feature matrix has one row per sample of the dataset and one
    column per feature of the dataset that is named among the regulators;
    so it never has more columns than the dataset has features, however
    many edges the network lists. *)
Theorem feature_matrix_shape grn (adata : AnnData num) t sk tk layer Xt y
    regs :
  _select_data grn adata t sk tk layer true = Ok (Xt, y, Some regs) →
  shape Xt = (n_obs adata,
              length (filter (fun v => v ∈ regs) (var_index adata))) ∧
  ((shape Xt).2 ≤ length (var_index adata))%nat.
Proof.
  intros (sources & targets & M & _ & _ & _ & -> & _ & Hregs)
    %select_data_inv.
  simplify_eq. simpl. rewrite length_where_isin. split; [done|].
  apply length_filter.
Qed.

(** X3.  The feature matrix and the target vector depend on the network
    only through the set of the regulators: two networks whose edges into
    the target name the same regulators, in any order and with any
    repetition, select the same arrays. *)
Theorem selection_by_membership grn1 grn2 (adata : AnnData num) t sk1 tk1
    sk2 tk2 layer X1 y1 regs1 X2 y2 regs2 :
  _select_data grn1 adata t sk1 tk1 layer true = Ok (X1, y1, Some regs1) →
  _select_data grn2 adata t sk2 tk2 layer true = Ok (X2, y2, Some regs2) →
  (∀ v, v ∈ regs1 ↔ v ∈ regs2) →
  X1 = X2 ∧ y1 = y2.
Proof.
  intros (s1 & t1 & M1 & _ & _ & HM1 & -> & -> & Hr1)%select_data_inv
         (s2 & t2 & M2 & _ & _ & HM2 & -> & -> & Hr2)%select_data_inv Hsame.
  assert (M1 = M2) as -> by (destruct layer; congruence).
  simplify_eq. split; [|done]. do 2 f_equal. unfold isin.
  apply list_fmap_ext. intros _ v _. apply bool_decide_ext, Hsame.
Qed.

Lemma nonzero_from_bound i mask :
  Forall (fun j => (j < i + length mask)%nat) (nonzero_from i mask).
Proof.
  revert i. induction mask as [|b mask IH]; intros i; simpl; [done|].
  specialize (IH (S i)).
  assert (Forall (fun j => (j < i + S (length mask))%nat)
            (nonzero_from (S i) mask)) as IH'
    by (eapply Forall_impl; [exact IH | simpl; lia]).
  destruct b; [|done]. constructor; [lia | done].
Qed.

Lemma length_take_row {A} (row : list A) idx :
  Forall (fun j => (j < length row)%nat) idx →
  length (omap (fun j => row !! j) idx) = length idx.
Proof.
  induction 1 as [|j idx Hj _ IH]; [done|]. simpl.
  destruct (lookup_lt_is_Some_2 row j Hj) as [x ->]. simpl.
  f_equal. exact IH.
Qed.

Lemma take_columns_rows n k idx (M : list (list num)) :
  wf_matrix n k M → Forall (fun j => (j < k)%nat) idx →
  length (data (take_columns n idx M)) = n ∧
  Forall (fun row => length row = length idx) (data (take_columns n idx M)).
Proof.
  intros [Hn Hrows] Hidx. simpl. rewrite length_fmap. split; [done|].
  apply Forall_fmap. eapply Forall_impl; [exact Hrows|].
  intros row Hrow. simpl. apply length_take_row. by rewrite Hrow.
Qed.

Lemma length_concat_rows {A} (rows : list (list A)) k :
  Forall (fun row => length row = k) rows →
  length (concat rows) = (length rows * k)%nat.
Proof.
  induction 1 as [|row rows Hrow _ IH]; [done|].
  simpl. rewrite length_app, IH, Hrow. done.
Qed.

(** X4.  On a well-formed dataset the arrays the selector returns have the
    shape it reports: the feature matrix has one row per sample, each with
    one entry per selected column, and the target vector has one entry per
    sample for each occurrence of the target in the feature index.  So the
    vector is empty, without an error, for a target that is not a feature,
    and has as many entries as the matrix has rows for a target that occurs
    once. *)
Theorem selected_arrays_shapes grn (adata : AnnData num) t sk tk layer rr Xt
    y oregs :
  wf_adata adata →
  _select_data grn adata t sk tk layer rr = Ok (Xt, y, oregs) →
  length (data Xt) = (shape Xt).1 ∧
  Forall (fun row => length row = (shape Xt).2) (data Xt) ∧
  length y =
    (n_obs adata * length (filter (fun v => v = t) (var_index adata)))%nat.
Proof.
  intros [HX Hlayers]
    (sources & targets & M & _ & _ & HM & -> & -> & _)%select_data_inv.
  assert (wf_matrix (n_obs adata) (length (var_index adata)) M) as HwfM.
  { destruct layer as [l|]; [by eapply Hlayers | by subst]. }
  assert (∀ mask : list bool, length mask = length (var_index adata) →
            Forall (fun j => (j < length (var_index adata))%nat)
              (np_where mask)) as Hidx.
  { intros mask Hlen. unfold np_where.
    eapply Forall_impl; [apply nonzero_from_bound|].
    simpl. intros j. by rewrite Hlen. }
  destruct (take_columns_rows _ _
              (np_where (isin (var_index adata)
                 (pd.compress (pd.eq_scalar targets t) sources))) M HwfM)
    as [HXn HXrows]; [apply Hidx; apply length_fmap|].
  destruct (take_columns_rows _ _
              (np_where (pd.eq_scalar (var_index adata) t)) M HwfM)
    as [Hyn Hyrows]; [apply Hidx; apply length_fmap|].
  split; [done|]. split; [done|].
  unfold flatten. rewrite (length_concat_rows _ _ Hyrows), Hyn.
  by rewrite length_where_eq_scalar.
Qed.

(** X5.  A missing key column is reported before anything else: when the
    table lacks the target column or the source column, the selector raises
    [KeyError] for the first of the two it looks up (the target column,
    then the source column), whether or not the requested layer exists. *)
Theorem selector_key_errors_first grn (adata : AnnData num) t sk tk layer
    rr :
  sk ∉ pd.columns grn ∨ tk ∉ pd.columns grn →
  _select_data grn adata t sk tk layer rr =
    Raise (KeyError (if bool_decide (tk ∈ pd.columns grn) then sk else tk)).
Proof.
  intros Hmissing. case_bool_decide as Htk.
  - apply select_data_missing_source; [done|]. by destruct Hmissing.
  - by apply select_data_missing_target.
Qed.

(** *** The fitter and the orchestrator *)

Lemma unique_from_NoDup seen s : NoDup (pd.unique_from seen s).
Proof.
  revert seen. induction s as [|x s IH]; intros seen; simpl.
  - constructor.
  - case_bool_decide; [apply IH|].
    constructor; [|apply IH].
    rewrite unique_from_elem_of. intros [_ Hx]. apply Hx. left.
Qed.

Lemma unique_NoDup s : NoDup (pd.unique s).
Proof. apply unique_from_NoDup. Qed.

(** The fitter does not skip a target whose feature matrix has enough
    columns. *)
Lemma fit_model_not_skipped grn (adata : AnnData num) t m minr sk tk layer
    verbose Xt y regs res m' :
  _select_data grn adata t sk tk layer true = Ok (Xt, y, Some regs) →
  (minr ≤ Z.of_nat (shape Xt).2)%Z →
  _fit_model grn adata t m minr sk tk layer verbose = Ok (res, m') →
  ∃ r, res = Some r.
Proof.
  unfold _fit_model. intros -> Hge. simpl.
  destruct (shape Xt) as [n k]. simpl in Hge.
  rewrite bool_decide_eq_false_2 by lia.
  intros Hfit. exc_inv Hfit. simplify_eq. eauto.
Qed.

(** The targets of the collected rows, against the enumerated targets. *)
Lemma collected_targets grn (adata : AnnData num) minr sk tk layer verbose
    targets results :
  Forall2 (fun t res => ∃ m0 m1,
             _fit_model grn adata t m0 minr sk tk layer verbose =
               Ok (res, m1)) targets results →
  target <$> not_None results `sublist_of` targets ∧
  (Forall (fun res => res ≠ None) results →
   target <$> not_None results = targets).
Proof.
  induction 1 as [|t res targets results (m0 & m1 & Hfit) _ [IH1 IH2]].
  - split; [constructor | done].
  - destruct res as [r|]; simpl.
    + apply fit_model_Some in Hfit as (<- & _). split.
      * by apply sublist_skip.
      * intros [_ Hall]%Forall_cons_1. f_equal. by apply IH2.
    + split; [by apply sublist_cons|].
      by intros [? _]%Forall_cons_1.
Qed.

Lemma getitem_table_target (rs : list (FitResult num)) :
  pd.getitem (table_of_rows rs) (LStr "target") =
  Ok ((fun r => VStr (target r)) <$> rs).
Proof. reflexivity. Qed.

(** X6.  The rows of the returned table follow the network: their targets
    are distinct, they are targets of the network, and they come in the
    order in which the targets first appear in the target column. *)
Theorem rows_follow_targets grn (adata : AnnData num) m minr sk tk layer
    n_jobs verbose sched table target_col :
  _compute_gene_expression_prediction grn adata m minr sk tk layer n_jobs
    verbose sched = Ok table →
  pd.getitem grn tk = Ok target_col →
  ∃ ts, pd.getitem table (LStr "target") = Ok (VStr <$> ts) ∧
    ts `sublist_of` pd.unique target_col ∧ NoDup ts ∧
    Forall (fun t => t ∈ target_col) ts.
Proof.
  intros (target_col' & results & Hcol & Hran & _ & ->)%compute_private_Ok
    Hcol'.
  rewrite Hcol in Hcol'. simplify_eq.
  destruct (collected_targets _ _ _ _ _ _ _ _ _ Hran) as [Hsub _].
  exists (target <$> not_None results).
  rewrite getitem_table_target, <- list_fmap_compose.
  split; [done|]. split; [done|]. split.
  - eapply sublist_NoDup; [apply unique_NoDup | exact Hsub].
  - apply Forall_forall. intros t Ht. apply unique_elem_of.
    by eapply elem_of_sublist.
Qed.

(** X7.  With [min_regulators] at or below zero no target is skipped: the
    returned table has exactly one row for each distinct target of the
    network, in the order of first appearance. *)
Theorem no_threshold_no_skip grn (adata : AnnData num) m minr sk tk layer
    n_jobs verbose sched table target_col :
  (minr ≤ 0)%Z →
  _compute_gene_expression_prediction grn adata m minr sk tk layer n_jobs
    verbose sched = Ok table →
  pd.getitem grn tk = Ok target_col →
  pd.getitem table (LStr "target") = Ok (VStr <$> pd.unique target_col).
Proof.
  intros Hminr
    (target_col' & results & Hcol & Hran & _ & ->)%compute_private_Ok Hcol'.
  rewrite Hcol in Hcol'. simplify_eq.
  destruct (collected_targets _ _ _ _ _ _ _ _ _ Hran) as [_ Hall].
  rewrite getitem_table_target.
  rewrite <- Hall; [by rewrite <- list_fmap_compose|].
  eapply Forall2_Forall_r; [exact Hran|]. apply Forall_forall.
  intros t _ res (m0 & m1 & Hfit) ->.
  unfold _fit_model in Hfit. exc_inv Hfit.
  destruct a as [[Xt y] [regs|]]; [|done].
  destruct (shape Xt) as [n k].
  rewrite bool_decide_eq_false_2 in Hfit by lia.
  exc_inv Hfit. simplify_eq.
Qed.

(** X8.  Every target of the network whose feature matrix has at least
    [min_regulators] columns has a row in the returned table. *)
Theorem fitted_targets_have_rows grn (adata : AnnData num) m minr sk tk
    layer n_jobs verbose sched table target_col t Xt y regs :
  _compute_gene_expression_prediction grn adata m minr sk tk layer n_jobs
    verbose sched = Ok table →
  pd.getitem grn tk = Ok target_col → t ∈ target_col →
  _select_data grn adata t sk tk layer true = Ok (Xt, y, Some regs) →
  (minr ≤ Z.of_nat (shape Xt).2)%Z →
  ∃ i, pd.at_ table i (LStr "target") = Some (VStr t).
Proof.
  intros (target_col' & results & Hcol & Hran & _ & ->)%compute_private_Ok
    Hcol' Ht Hsel Hge.
  rewrite Hcol in Hcol'. simplify_eq.
  apply unique_elem_of, list_elem_of_lookup_1 in Ht as [j Hj].
  destruct (Forall2_lookup_l _ _ _ _ _ Hran Hj)
    as (res & Hres & m0 & m1 & Hfit).
  destruct (fit_model_not_skipped _ _ _ _ _ _ _ _ _ _ _ _ _ _ Hsel Hge Hfit)
    as [r ->].
  apply fit_model_Some in Hfit as (Htarget & _).
  assert (r ∈ not_None results) as [i Hi]%list_elem_of_lookup_1.
  { apply elem_of_not_None. by eapply list_elem_of_lookup_2. }
  exists i. destruct (at_table_of_rows (not_None results) i) as (-> & _).
  rewrite Hi. simpl. by rewrite Htarget.
Qed.

(** X9.  In every row of the returned table, [n_regulators] is the number
    of edges of the network into the row's target: it counts an edge whose
    source is not a feature of the dataset, and counts a repeated edge each
    time. *)
Theorem n_regulators_counts_edges grn (adata : AnnData num) m minr sk tk
    layer n_jobs verbose sched table sources targets i t :
  _compute_gene_expression_prediction grn adata m minr sk tk layer n_jobs
    verbose sched = Ok table →
  pd.getitem grn sk = Ok sources → pd.getitem grn tk = Ok targets →
  pd.at_ table i (LStr "target") = Some (VStr t) →
  pd.at_ table i (LStr "n_regulators") =
    Some (VInt (Z.of_nat
            (length (filter (fun e => e.2 = t) (zip sources targets))))).
Proof.
  intros (rs & _ & -> & Hrows)%compute_private_rows Hs Ht.
  destruct (at_table_of_rows rs i) as (-> & _ & _ & ->).
  destruct (rs !! i) as [r|] eqn:Hr; [|done]. simpl. intros [= <-].
  rewrite Forall_forall in Hrows.
  destruct (Hrows r) as (m0 & m1 & Hfit);
    [by eapply list_elem_of_lookup_2|].
  apply fit_model_Some in Hfit as (_ & _ & Xt & y & Hsel & _).
  destruct (select_data_regulators _ _ _ _ _ _ _ _ _ _ _ Hs Ht Hsel)
    as [-> _].
  by rewrite length_fmap.
Qed.

(** X10.  A row is only returned for a target with enough usable
    regulators: at least [min_regulators] features of the dataset are named
    in the row's [regulators]. *)
Theorem rows_have_enough_features grn (adata : AnnData num) m minr sk tk
    layer n_jobs verbose sched table i regs :
  _compute_gene_expression_prediction grn adata m minr sk tk layer n_jobs
    verbose sched = Ok table →
  pd.at_ table i (LStr "regulators") = Some (VArray regs) →
  (minr ≤
   Z.of_nat (length (filter (fun v => v ∈ regs) (var_index adata))))%Z.
Proof.
  intros (rs & _ & -> & Hrows)%compute_private_rows.
  destruct (at_table_of_rows rs i) as (_ & _ & -> & _).
  destruct (rs !! i) as [r|] eqn:Hr; [|done]. simpl. intros [= <-].
  rewrite Forall_forall in Hrows.
  destruct (Hrows r) as (m0 & m1 & Hfit);
    [by eapply list_elem_of_lookup_2|].
  apply fit_model_Some in Hfit as (_ & _ & Xt & y & Hsel & Hge).
  apply select_data_inv in Hsel
    as (sources & targets & M & _ & _ & _ & -> & _ & Hregs).
  injection Hregs as ->. simpl in Hge.
  rewrite length_where_isin in Hge. lia.
Qed.

(** X11.  A table that the orchestrator returns is never empty and is well
    formed: it has at least one row, and exactly the six columns [target],
    [r2], [mse], [n_cells], [regulators], [n_regulators], in this order
    and all of the same length. *)
Theorem result_table_columns grn (adata : AnnData num) m minr sk tk layer
    n_jobs verbose sched table :
  _compute_gene_expression_prediction grn adata m minr sk tk layer n_jobs
    verbose sched = Ok table →
  pd.columns table =
    [LStr "target"; LStr "r2"; LStr "mse"; LStr "n_cells";
     LStr "regulators"; LStr "n_regulators"] ∧
  pd.wf table ∧ (0 < pd.n_rows table)%nat.
Proof.
  intros (rs & Hne & -> & _)%compute_private_rows.
  split; [done|]. rewrite n_rows_table_of_rows. split.
  - split.
    + unfold pd.columns. simpl.
      repeat (apply NoDup_cons_2;
              [rewrite ?not_elem_of_cons; repeat split; try done;
               apply not_elem_of_nil|]).
      apply NoDup_nil_2.
    + unfold table_of_rows.
      repeat (apply Forall_cons_2; [simpl; by rewrite !length_fmap|]).
      constructor.
  - destruct rs as [|r rs]; [done|]. rewrite length_cons. lia.
Qed.

(** X12.  A fit that fails fails the whole batch: when the estimator raises
    on the arrays of one target of the network that is not skipped, the
    orchestrator returns no table, whatever the other targets, [n_jobs] and
    the batching. *)
Theorem estimator_failure_aborts_batch grn (adata : AnnData num) m minr sk
    tk layer n_jobs verbose sched target_col t Xt y regs :
  pd.getitem grn tk = Ok target_col → t ∈ target_col →
  _select_data grn adata t sk tk layer true = Ok (Xt, y, Some regs) →
  (minr ≤ Z.of_nat (shape Xt).2)%Z →
  (∀ m0, returned (fit m0 Xt y) = None) →
  returned (_compute_gene_expression_prediction grn adata m minr sk tk
              layer n_jobs verbose sched) = None.
Proof.
  intros Hcol Ht Hsel Hge Hfail.
  destruct (_compute_gene_expression_prediction _ _ _ _ _ _ _ _ _ _)
    as [table|e] eqn:Hc; [|done].
  apply compute_private_Ok in Hc
    as (target_col' & results & Hcol' & Hran & _ & _).
  rewrite Hcol in Hcol'. simplify_eq.
  apply unique_elem_of, list_elem_of_lookup_1 in Ht as [j Hj].
  destruct (Forall2_lookup_l _ _ _ _ _ Hran Hj)
    as (res & _ & m0 & m1 & Hfit).
  unfold _fit_model in Hfit. rewrite Hsel in Hfit. simpl in Hfit.
  destruct (shape Xt) as [n k]. simpl in Hge.
  rewrite bool_decide_eq_false_2 in Hfit by lia.
  specialize (Hfail m0). by destruct (fit m0 Xt y).
Qed.

Lemma run_batch_all_None {A} (tasks : list (task model (option A))) m :
  Forall (fun t => ∀ m, t m = Ok (None, m)) tasks →
  run_batch tasks m = Ok (replicate (length tasks) None, m).
Proof.
  intros Hall. revert m.
  induction Hall as [|t tasks Ht _ IH]; intros m; simpl; [done|].
  rewrite Ht. simpl. by rewrite IH.
Qed.

Lemma dispatch_all_None {A} sched (tasks : list (task model (option A))) m :
  Forall (fun t => ∀ m, t m = Ok (None, m)) tasks →
  dispatch sched tasks m = Ok (replicate (length tasks) None).
Proof.
  revert tasks. induction sched as [|k sched IH]; intros tasks Hall;
    cbn [dispatch].
  - by rewrite run_batch_all_None.
  - rewrite run_batch_all_None by by apply Forall_take.
    rewrite Ok_bind, IH by by apply Forall_drop.
    rewrite Ok_bind. cbn [fst]. rewrite <- replicate_add, <- length_app.
    by rewrite take_drop.
Qed.

Lemma not_None_replicate {A} n : not_None (replicate n (@None A)) = [].
Proof. induction n as [|n IH]; [done | exact IH]. Qed.

(** X13.  When every target of the network is skipped (none at all, on a
    network without rows), the orchestrator does not return an empty table:
    it raises [KeyError] for the column [regulators] of the table it built
    from no row. *)
Theorem all_skipped_raises grn (adata : AnnData num) m minr sk tk layer
    n_jobs verbose sched target_col :
  pd.getitem grn tk = Ok target_col →
  n_jobs ≠ 0 →
  (∀ t, t ∈ target_col →
     ∃ Xt y regs,
       _select_data grn adata t sk tk layer true = Ok (Xt, y, Some regs) ∧
       (Z.of_nat (shape Xt).2 < minr)%Z) →
  _compute_gene_expression_prediction grn adata m minr sk tk layer n_jobs
    verbose sched = Raise (KeyError (LStr "regulators")).
Proof.
  intros Hcol Hjobs Hskip.
  unfold _compute_gene_expression_prediction. rewrite Hcol, Ok_bind.
  assert (Forall (fun t : task model (option (FitResult num)) =>
                    ∀ m, t m = Ok (None, m))
            ((fun target m =>
                _fit_model grn adata target m minr sk tk layer verbose)
               <$> pd.unique target_col)) as Hall.
  { apply Forall_fmap, Forall_forall. intros t Ht m0.
    apply (proj1 (unique_elem_of _ _)) in Ht.
    destruct (Hskip t Ht) as (Xt & y & regs & Hsel & Hlt).
    by eapply fit_model_skip. }
  assert (Parallel n_jobs sched
            ((fun target m =>
                _fit_model grn adata target m minr sk tk layer verbose)
               <$> pd.unique target_col) m
          = Ok (replicate (length (pd.unique target_col)) None)) as ->.
  { unfold Parallel. rewrite bool_decide_eq_false_2 by done.
    case_bool_decide.
    - rewrite run_batch_all_None by done. simpl. by rewrite length_fmap.
    - rewrite dispatch_all_None by done. by rewrite length_fmap. }
  by rewrite Ok_bind, not_None_replicate.
Qed.

Section AnyBatching.
Context {refits : RefitsFromScratch R}.

(** X14.  For an estimator that refits from scratch, whether the
    orchestrator returns a table, and which table, does not depend on
    [n_jobs], on the batching of the pool, or on what the estimator object
    had been fitted on before, as long as [n_jobs] is not zero and the
    configuration is the same. *)
Theorem table_independent_of_pool grn (adata : AnnData num) m1 m2 minr sk
    tk layer verbose n_jobs1 n_jobs2 sched1 sched2 :
  get_params m1 = get_params m2 → n_jobs1 ≠ 0 → n_jobs2 ≠ 0 →
  returned (_compute_gene_expression_prediction grn adata m1 minr sk tk
              layer n_jobs1 verbose sched1) =
  returned (_compute_gene_expression_prediction grn adata m2 minr sk tk
              layer n_jobs2 verbose sched2).
Proof.
  intros Hp Hn1 Hn2. unfold _compute_gene_expression_prediction.
  destruct (pd.getitem grn tk) as [target_col|e]; [|done].
  rewrite !Ok_bind.
  rewrite (Parallel_respects n_jobs1 n_jobs2 sched1 sched2 _ m1 m2);
    [done| |done..].
  apply Forall_fmap, Forall_forall. intros t _. apply fit_model_respects.
Qed.

End AnyBatching.

(** X19.  Wrong key names are reported as such: on a network with at least
    one row, when the table lacks the target column or the source column,
    the orchestrator raises [KeyError] for the first of the two it looks
    up (the target column, then the source column). *)
Theorem orchestrator_key_errors grn (adata : AnnData num) m minr sk tk layer
    n_jobs verbose sched :
  pd.wf grn → pd.n_rows grn ≠ 0%nat → n_jobs ≠ 0 →
  sk ∉ pd.columns grn ∨ tk ∉ pd.columns grn →
  _compute_gene_expression_prediction grn adata m minr sk tk layer n_jobs
    verbose sched =
  Raise (KeyError (if bool_decide (tk ∈ pd.columns grn) then sk else tk)).
Proof.
  intros Hwf Hrows Hjobs Hmissing.
  unfold _compute_gene_expression_prediction.
  case_bool_decide as Htk; [|by rewrite (getitem_missing _ _ Htk)].
  assert (sk ∉ pd.columns grn) as Hsk by by destruct Hmissing.
  destruct (proj1 (getitem_columns grn tk) Htk) as [target_col Hcol].
  destruct (unique_wf_nonempty _ _ _ Hwf Hrows Hcol) as (t & ts & Hu).
  rewrite Hcol, Ok_bind, Hu, fmap_cons.
  rewrite (Parallel_first_raises (model := model)
             (A := option (FitResult num)) _ _ _ _ _ (KeyError sk));
    [done..|].
  intros m0. by apply fit_model_select_Raise, select_data_missing_source.
Qed.

(** *** The entry point [compute_gene_expression_prediction] *)

(** X15.  The call returns only when it is in place: whenever it returns,
    [inplace] was true, the value returned is [None], and the store differs
    from the caller's only under the key ["gene_expression_prediction"] of
    its auxiliary namespace, where the table stands; that table has no
    column [n_regulators].  Not in place, the call always raises (for a
    missing entry of the store, or in the constructor of line 168). *)
Theorem public_returns_only_in_place (mdata : MuData num) grn_key celltype
    data_key m minr n_jobs verbose inplace sched mdata' ret :
  compute_gene_expression_prediction mdata grn_key celltype data_key m minr
    n_jobs verbose inplace sched = Ok (mdata', ret) →
  inplace = true ∧ ret = None ∧
  mod_grn mdata' = mod_grn mdata ∧ mod_data mdata' = mod_data mdata ∧
  (∀ k, k ≠ "gene_expression_prediction" →
        uns mdata' !! k = uns mdata !! k) ∧
  ∃ table, (LStr "n_regulators" ∉ pd.columns table) ∧
    uns mdata' !! "gene_expression_prediction" = Some table.
Proof.
  unfold compute_gene_expression_prediction. intros Hc.
  destruct inplace; cycle 1.
  { apply bind_Ok in Hc as (local & Hlocal & _).
    exc_inv Hlocal. discriminate. }
  exc_inv Hc. simplify_eq/=. do 4 (split; [done|]). split.
  - intros k Hk. by rewrite lookup_insert_ne.
  - exists (DataFrame_of_records (not_None a4)).
    split; [apply columns_DataFrame_of_records | apply lookup_insert_eq].
Qed.

(** The outcome of the call in place on a network without rows. *)
Lemma public_zero_rows (mdata : MuData num) grn_key celltype data_key m minr
    n_jobs verbose sched grn0 grn :
  mod_grn mdata !! grn_key = Some grn0 →
  is_Some (mod_data mdata !! data_key) →
  subset_celltype grn0 celltype = Ok grn →
  pd.wf grn → pd.n_rows grn = 0%nat → LStr "target" ∈ pd.columns grn →
  n_jobs ≠ 0 →
  compute_gene_expression_prediction mdata grn_key celltype data_key m minr
    n_jobs verbose true sched =
  Ok ({| mod_grn := mod_grn mdata; mod_data := mod_data mdata;
         uns := <[ "gene_expression_prediction" := [] ]> (uns mdata) |},
      None).
Proof.
  intros Hgrn [adata Hdata] Hsub Hwf Hrows [target_col Hcol]%getitem_columns
    Hjobs.
  pose proof (getitem_length _ _ _ Hwf Hcol) as Hlen. rewrite Hrows in Hlen.
  destruct target_col; [|done].
  unfold compute_gene_expression_prediction.
  rewrite Ok_bind, (mod_getitem_Some _ _ _ Hgrn), Ok_bind, Hsub, Ok_bind.
  rewrite (mod_getitem_Some _ _ _ Hdata), Ok_bind, Hcol, Ok_bind.
  change (pd.unique []) with (@nil string). rewrite fmap_nil.
  by rewrite (Parallel_nil (model := model) (A := option (FitResult num))).
Qed.

(** X16.  In place, on a network without rows that has the column
    ["target"], this entry point writes the table without rows and without
    columns under the reserved key, returns [None] and raises nothing. *)
Theorem public_empty_network (mdata : MuData num) grn_key data_key m minr
    n_jobs verbose sched grn :
  mod_grn mdata !! grn_key = Some grn →
  is_Some (mod_data mdata !! data_key) →
  pd.wf grn → pd.n_rows grn = 0%nat → LStr "target" ∈ pd.columns grn →
  n_jobs ≠ 0 →
  compute_gene_expression_prediction mdata grn_key None data_key m minr
    n_jobs verbose true sched =
  Ok ({| mod_grn := mod_grn mdata; mod_data := mod_data mdata;
         uns := <[ "gene_expression_prediction" := [] ]> (uns mdata) |},
      None).
Proof. intros. by eapply public_zero_rows. Qed.

Lemma compress_no_match {A} (col : list string) c (s : list A) :
  c ∉ col → pd.compress (pd.eq_scalar col c) s = [].
Proof.
  revert s. induction col as [|v col IH]; intros s Hc; [done|].
  apply not_elem_of_cons in Hc as [Hne Hc].
  destruct s as [|x s]; [done|]. simpl.
  rewrite bool_decide_eq_false_2 by done. by apply IH.
Qed.

Lemma loc_mask_no_match (df : pd.DataFrame string) (col : list string) c :
  pd.wf df → c ∉ col →
  pd.wf (pd.loc_mask df (pd.eq_scalar col c)) ∧
  pd.n_rows (pd.loc_mask df (pd.eq_scalar col c)) = 0%nat.
Proof.
  intros [Hnd _] Hc.
  assert (Forall (fun c : label * list string => c.2 = [])
            (pd.loc_mask df (pd.eq_scalar col c))) as Hempty.
  { unfold pd.loc_mask. apply Forall_fmap, Forall_forall.
    intros [k s] _. simpl. by apply compress_no_match. }
  assert (pd.n_rows (pd.loc_mask df (pd.eq_scalar col c)) = 0%nat) as Hrows.
  { destruct (pd.loc_mask df (pd.eq_scalar col c)) as [|[k s] rest];
      [done|].
    apply Forall_cons_1 in Hempty as [Hs _]. simpl in *. by subst. }
  split; [|done]. split.
  - by rewrite columns_loc_mask.
  - rewrite Hrows. eapply Forall_impl; [exact Hempty|].
    by intros [k s]; simpl; intros ->.
Qed.

(** X17.  In place, asked for a cell type that no edge of the network
    carries, this entry point writes the empty table under the reserved
    key, returns [None] and raises nothing. *)
Theorem public_unknown_celltype (mdata : MuData num) grn_key c data_key m
    minr n_jobs verbose sched grn celltypes :
  mod_grn mdata !! grn_key = Some grn →
  is_Some (mod_data mdata !! data_key) →
  pd.wf grn → LStr "target" ∈ pd.columns grn →
  pd.getitem grn (LStr "celltype") = Ok celltypes → c ∉ celltypes →
  n_jobs ≠ 0 →
  compute_gene_expression_prediction mdata grn_key (Some c) data_key m minr
    n_jobs verbose true sched =
  Ok ({| mod_grn := mod_grn mdata; mod_data := mod_data mdata;
         uns := <[ "gene_expression_prediction" := [] ]> (uns mdata) |},
      None).
Proof.
  intros Hgrn Hdata Hwf Htarget Hcol Hc Hjobs.
  destruct (loc_mask_no_match grn celltypes c Hwf Hc) as [Hwf' Hrows].
  eapply public_zero_rows; try done.
  - unfold subset_celltype, pd.query_eq. by rewrite Hcol.
  - by rewrite columns_loc_mask.
Qed.

(** X18.  In place, asked for a cell type on a network that has no column
    ["celltype"], this entry point raises the exception of
    [DataFrame.query] for the unknown name, before it reads the dataset; it
    writes nothing. *)
Theorem public_missing_celltype_column (mdata : MuData num) grn_key c
    data_key m minr n_jobs verbose sched grn :
  mod_grn mdata !! grn_key = Some grn →
  LStr "celltype" ∉ pd.columns grn →
  compute_gene_expression_prediction mdata grn_key (Some c) data_key m minr
    n_jobs verbose true sched = Raise (UndefinedVariableError "celltype").
Proof.
  intros Hgrn Hcol.
  assert (subset_celltype grn (Some c) =
            Raise (UndefinedVariableError "celltype")) as Hsub.
  { unfold subset_celltype, pd.query_eq.
    by rewrite (getitem_missing _ _ Hcol). }
  unfold compute_gene_expression_prediction.
  by rewrite Ok_bind, (mod_getitem_Some _ _ _ Hgrn), Ok_bind, Hsub.
Qed.

End MoreProperties.

(** ** The claims on concrete inputs *)

Import Sample.

(** C1 (empty network).  On a network table with its two columns and no
    row, the orchestrator raises: the result table built from no row has no
    column, and line 124 looks up its column [regulators]. *)
Theorem empty_network_raises :
  _compute_gene_expression_prediction grn_empty adata (None : option Z) 1
    (LStr "tf") (LStr "gene") None 1 true [] =
  Raise (KeyError (LStr "regulators")).
Proof. reflexivity. Qed.

(** C2 (regulator resolution).  For the edges A→G and Z→G, where Z is not a
    feature of the dataset, the feature matrix has the one column of A, and
    the row of G in the result table has [n_regulators = 2]: the length of
    the sequence read from the network, Z included. *)
Theorem n_regulators_counts_unresolved :
  (∃ X y,
     _select_data grn_unresolved adata "G" (LStr "tf") (LStr "gene") None true
       = Ok (X, y, Some ["A"; "Z"]) ∧
     shape X = (2%nat, 1%nat)) ∧
  ∃ table,
    _compute_gene_expression_prediction grn_unresolved adata (None : option Z)
      1 (LStr "tf") (LStr "gene") None 1 true [] = Ok table ∧
    pd.at_ table 0 (LStr "regulators") = Some (VArray ["A"; "Z"]) ∧
    pd.at_ table 0 (LStr "n_regulators") = Some (VInt 2).
Proof.
  split.
  - eexists _, _. split; reflexivity.
  - eexists. split; [reflexivity|]. split; reflexivity.
Qed.

(** C5 (distinct regulators).  For a network that lists the edge A→G twice,
    the selector returns, and the result table records, the sequence
    [A; A], in which A appears twice. *)
Theorem regulators_repeat_edges :
  (∃ X y,
     _select_data grn_repeated adata "G" (LStr "tf") (LStr "gene") None true
       = Ok (X, y, Some ["A"; "A"])) ∧
  (∃ table,
     _compute_gene_expression_prediction grn_repeated adata (None : option Z)
       1 (LStr "tf") (LStr "gene") None 1 true [] = Ok table ∧
     pd.at_ table 0 (LStr "regulators") = Some (VArray ["A"; "A"])) ∧
  ¬ NoDup ["A"; "A"].
Proof.
  split; [|split].
  - eexists _, _. reflexivity.
  - eexists. split; reflexivity.
  - intros Hnd. apply NoDup_cons in Hnd as [Hnotin _].
    apply Hnotin. left.
Qed.

(** C6 (derived column and in-place write).  On a network with the columns
    [tf], [gene] and [target], the entry point that writes in place raises
    and writes nothing; on the same network with one more column labelled
    [True], it writes a table under ["gene_expression_prediction"], and that
    table has one row and no column [n_regulators]. *)
Theorem in_place_table_lacks_n_regulators :
  compute_gene_expression_prediction (store grn_target) "grn" None "rna"
    (None : option Z) 1 1 true true [] = Raise (KeyError (LBool true)) ∧
  ∃ mdata' table,
    compute_gene_expression_prediction (store grn_true) "grn" None "rna"
      (None : option Z) 1 1 true true [] = Ok (mdata', None) ∧
    uns mdata' !! "gene_expression_prediction" = Some table ∧
    pd.at_ table 0 (LStr "target") = Some (VStr "G") ∧
    pd.getitem table (LStr "n_regulators") =
      Raise (KeyError (LStr "n_regulators")).
Proof.
  split; [reflexivity|].
  eexists _, _. split; [reflexivity|]. split; [|split]; reflexivity.
Qed.

(** C9 (two entry points).  On one network, dataset, estimator, threshold,
    [n_jobs] and [verbose], the two entry points do not agree.
    [_compute_gene_expression_prediction] hands the keys it is given to the
    fitter: with the target key ["gene"] it returns the row of G, with the
    target key ["target"] the row of C, both with the regulators A and B,
    and with the two keys exchanged the rows of A and B with the regulator
    G.  [compute_gene_expression_prediction], called in place, takes no
    keys: it reads the targets from the column ["target"], hands the fitter
    [verbose] for the source key and ["gene"] for the target key, and
    raises; on a network with the columns ["tf"] and ["gene"] only, where
    the first entry point returns a table, it raises for the column
    ["target"]. *)
Theorem entry_points_differ :
  _compute_gene_expression_prediction grn_keys adata (None : option Z) 1
    (LStr "tf") (LStr "gene") None 1 true [] =
    Ok [ (LStr "target", [VStr "G"]); (LStr "r2", [VFloat 0]);
         (LStr "mse", [VFloat 9]); (LStr "n_cells", [VInt 2]);
         (LStr "regulators", [VArray ["A"; "B"]]);
         (LStr "n_regulators", [VInt 2]) ] ∧
  _compute_gene_expression_prediction grn_keys adata (None : option Z) 1
    (LStr "tf") (LStr "target") None 1 true [] =
    Ok [ (LStr "target", [VStr "C"]); (LStr "r2", [VFloat 0]);
         (LStr "mse", [VFloat 4]); (LStr "n_cells", [VInt 2]);
         (LStr "regulators", [VArray ["A"; "B"]]);
         (LStr "n_regulators", [VInt 2]) ] ∧
  _compute_gene_expression_prediction grn_keys adata (None : option Z) 1
    (LStr "gene") (LStr "tf") None 1 true [] =
    Ok [ (LStr "target", [VStr "A"; VStr "B"]);
         (LStr "r2", [VFloat 0; VFloat 0]);
         (LStr "mse", [VFloat 4; VFloat 4]);
         (LStr "n_cells", [VInt 2; VInt 2]);
         (LStr "regulators", [VArray ["G"]; VArray ["G"]]);
         (LStr "n_regulators", [VInt 1; VInt 1]) ] ∧
  compute_gene_expression_prediction (store grn_keys) "grn" None "rna"
    (None : option Z) 1 1 true true [] = Raise (KeyError (LBool true)) ∧
  _compute_gene_expression_prediction grn adata (None : option Z) 1
    (LStr "tf") (LStr "gene") None 1 true [] =
    Ok [ (LStr "target", [VStr "G"]); (LStr "r2", [VFloat 0]);
         (LStr "mse", [VFloat 9]); (LStr "n_cells", [VInt 2]);
         (LStr "regulators", [VArray ["A"; "B"; "C"]]);
         (LStr "n_regulators", [VInt 3]) ] ∧
  compute_gene_expression_prediction (store grn) "grn" None "rna"
    (None : option Z) 1 1 true true [] = Raise (KeyError (LStr "target")).
Proof. repeat split; reflexivity. Qed.

(** The expected result on the network A→G, B→G, C→G. *)
Lemma sample_run :
  _compute_gene_expression_prediction grn adata (None : option Z) 1
    (LStr "tf") (LStr "gene") None 1 true [] =
  Ok [ (LStr "target", [VStr "G"]); (LStr "r2", [VFloat 0]);
       (LStr "mse", [VFloat 9]); (LStr "n_cells", [VInt 2]);
       (LStr "regulators", [VArray ["A"; "B"; "C"]]);
       (LStr "n_regulators", [VInt 3]) ].
Proof. reflexivity. Qed.

(** The shape invariant on the row of G. *)
Lemma shape_invariant_witness :
  pd.at_ (table_of_rows
            [ {| target := "G"; r2 := 0; mse := 9; n_cells := 2;
                 regulators := ["A"; "B"; "C"] |} ])
    0 (LStr "n_cells") = Some (VInt (Z.of_nat (n_obs adata))) ∧
  ∃ regs,
    pd.at_ (table_of_rows
              [ {| target := "G"; r2 := 0; mse := 9; n_cells := 2;
                   regulators := ["A"; "B"; "C"] |} ])
      0 (LStr "regulators") = Some (VArray regs) ∧
    pd.at_ (table_of_rows
              [ {| target := "G"; r2 := 0; mse := 9; n_cells := 2;
                   regulators := ["A"; "B"; "C"] |} ])
      0 (LStr "n_regulators") = Some (VInt (Z.of_nat (length regs))).
Proof.
  apply (shape_invariant grn adata (None : option Z) 1 (LStr "tf")
           (LStr "gene") None 1 true []).
  - reflexivity.
  - simpl. lia.
Defined.

(** With [min_regulators = 2], the target C of the network A→G, B→G, A→C
    has one regulator and is skipped. *)
Lemma skip_below_min_regulators_witness :
  _fit_model grn_two_targets adata "C" (None : option Z) 2 (LStr "tf")
    (LStr "gene") None true = Ok (None, None) ∧
  ∀ (m0 : option Z) n_jobs sched table i,
    _compute_gene_expression_prediction grn_two_targets adata m0 2
      (LStr "tf") (LStr "gene") None n_jobs true sched = Ok table →
    pd.at_ table i (LStr "target") ≠ Some (VStr "C").
Proof.
  eapply (skip_below_min_regulators grn_two_targets adata "C" None 2
            (LStr "tf") (LStr "gene") None true).
  - reflexivity.
  - simpl. lia.
Defined.

(** On that network the pool returns the row of G alone. *)
Lemma sample_skip_run :
  _compute_gene_expression_prediction grn_two_targets adata (None : option Z)
    2 (LStr "tf") (LStr "gene") None 4 true [1%nat; 1%nat] =
  Ok [ (LStr "target", [VStr "G"]); (LStr "r2", [VFloat 0]);
       (LStr "mse", [VFloat 9]); (LStr "n_cells", [VInt 2]);
       (LStr "regulators", [VArray ["A"; "B"]]);
       (LStr "n_regulators", [VInt 2]) ].
Proof. reflexivity. Qed.

(** The dataset [adata] has no layer ["counts"]. *)
Lemma missing_layer_aborts_witness :
  (∀ t rr,
     _select_data grn adata t (LStr "tf") (LStr "gene") (Some "counts") rr =
       Raise (layer_not_found "counts")) ∧
  (∀ (m : option Z) minr n_jobs verbose sched,
     returned (_compute_gene_expression_prediction grn adata m minr
                 (LStr "tf") (LStr "gene") (Some "counts") n_jobs verbose
                 sched) = None) ∧
  (∀ (m : option Z) minr n_jobs verbose sched,
     pd.wf grn → pd.n_rows grn ≠ 0%nat → n_jobs ≠ 0 →
     _compute_gene_expression_prediction grn adata m minr (LStr "tf")
       (LStr "gene") (Some "counts") n_jobs verbose sched =
       Raise (layer_not_found "counts")).
Proof.
  apply (missing_layer_aborts (R := mean_regressor) grn adata "counts"
           (LStr "tf") (LStr "gene")).
  - reflexivity.
  - unfold pd.columns. simpl. repeat constructor.
  - unfold pd.columns. simpl. repeat constructor.
Defined.

(** The sample estimator refits from scratch. *)
Lemma mean_regressor_refits : RefitsFromScratch mean_regressor.
Proof. split; reflexivity. Qed.

(** A run on the network A→G, B→G, A→C with [n_jobs = 1] and an unfitted
    estimator, and a run with [n_jobs = 4], two batches of one task and an
    estimator fitted before. *)
Lemma determinism_n_jobs_witness :
  returned (_compute_gene_expression_prediction grn_two_targets adata
              (None : option Z) 1 (LStr "tf") (LStr "gene") None 1 true [])
  = returned (_compute_gene_expression_prediction grn_two_targets adata
                (Some 3) 1 (LStr "tf") (LStr "gene") None 4 true
                [1%nat; 1%nat]).
Proof.
  apply (determinism_n_jobs (refits := mean_regressor_refits)).
  reflexivity.
Defined.

(** C8, as stated, fails for an estimator that carries what it learnt from
    one fit to the next: in one process the second target is fitted by the
    estimator object that was fitted on the first, in the pool each batch
    fits a copy of the caller's object. *)
Lemma determinism_needs_refit :
  returned (_compute_gene_expression_prediction grn_two_targets adata
              ([] : list Z) 1 (LStr "tf") (LStr "gene") None 1 true [])
  ≠ returned (_compute_gene_expression_prediction grn_two_targets adata
                ([] : list Z) 1 (LStr "tf") (LStr "gene") None 4 true
                [1%nat; 1%nat]).
Proof. vm_compute. discriminate. Qed.

(** The network [grn_target] has two rows and no column labelled [True]. *)
Lemma positional_call_raises_KeyError_witness :
  ∃ k, k ∈ [LStr "rna"; LStr "target"; LStr "gene"; LBool true] ∧
    (is_Some (mod_data (store grn_target) !! "rna") →
     LStr "target" ∈ pd.columns grn_target →
     LStr "gene" ∈ pd.columns grn_target →
     k = LBool true) ∧
    compute_gene_expression_prediction (store grn_target) "grn" None "rna"
      (None : option Z) 1 1 true true [] = Raise (KeyError k).
Proof.
  apply (positional_call_raises_KeyError (store grn_target) "grn" None "rna"
           (None : option Z) 1 1 true [] grn_target grn_target).
  - reflexivity.
  - reflexivity.
  - split.
    + exact (bool_decide_unpack (NoDup (pd.columns grn_target)) I).
    + repeat constructor.
  - simpl. lia.
  - exact (bool_decide_unpack (LBool true ∉ pd.columns grn_target) I).
  - lia.
Defined.

(** ** The further properties on concrete inputs *)

Lemma adata_wf : wf_adata adata.
Proof.
  split; [split; [reflexivity | repeat constructor]|].
  intros l L Hl. cbn in Hl. by rewrite lookup_empty in Hl.
Qed.

Lemma regulators_are_edge_sources_witness :
  ["A"; "A"] =
  (filter (fun e => e.2 = "G") (zip ["A"; "A"] ["G"; "G"])).*1.
Proof.
  eapply (regulators_are_edge_sources grn_repeated adata "G" (LStr "tf")
            (LStr "gene") None); reflexivity.
Defined.

Lemma feature_matrix_shape_witness :
  shape (take_columns 2 [0%nat] (X adata)) =
    (n_obs adata,
     length (filter (fun v => v ∈ ["A"; "Z"]) (var_index adata))) ∧
  ((shape (take_columns 2 [0%nat] (X adata))).2
   ≤ length (var_index adata))%nat.
Proof.
  eapply (feature_matrix_shape grn_unresolved adata "G" (LStr "tf")
            (LStr "gene") None). reflexivity.
Defined.

Lemma selection_by_membership_witness :
  take_columns 2 [0%nat] (X adata) = take_columns 2 [0%nat] (X adata) ∧
  [4; 10] = [4; 10].
Proof.
  eapply (selection_by_membership grn_repeated grn_single adata "G"
            (LStr "tf") (LStr "gene") (LStr "tf") (LStr "gene") None
            _ _ ["A"; "A"] _ _ ["A"]).
  - reflexivity.
  - reflexivity.
  - intros v. rewrite !elem_of_cons. tauto.
Defined.

(** The target H of the network A→G, A→H is not a feature of [adata]:
    its vector is empty, its matrix has the column of A. *)
Lemma selected_arrays_shapes_witness :
  length (data (take_columns 2 [0%nat] (X adata))) =
    (shape (take_columns 2 [0%nat] (X adata))).1 ∧
  Forall (fun row =>
            length row = (shape (take_columns 2 [0%nat] (X adata))).2)
    (data (take_columns 2 [0%nat] (X adata))) ∧
  length ([] : list Z) =
    (n_obs adata * length (filter (fun v => v = "H") (var_index adata)))%nat.
Proof.
  eapply (selected_arrays_shapes grn_absent_target adata "H" (LStr "tf")
            (LStr "gene") None true).
  - exact adata_wf.
  - reflexivity.
Defined.

(** The network [grn] has no column ["regulator"]. *)
Lemma selector_key_errors_first_witness :
  _select_data grn adata "G" (LStr "regulator") (LStr "gene")
    (Some "counts") true =
  Raise (KeyError
           (if bool_decide (LStr "gene" ∈ pd.columns grn)
            then LStr "regulator" else LStr "gene")).
Proof.
  apply (selector_key_errors_first grn adata "G" (LStr "regulator")
           (LStr "gene") (Some "counts") true).
  left. exact (bool_decide_unpack (LStr "regulator" ∉ pd.columns grn) I).
Defined.

Lemma rows_follow_targets_witness :
  ∃ ts,
    pd.getitem (table grn_two_targets 2) (LStr "target") = Ok (VStr <$> ts) ∧
    ts `sublist_of` pd.unique ["G"; "G"; "C"] ∧ NoDup ts ∧
    Forall (fun t => t ∈ ["G"; "G"; "C"]) ts.
Proof.
  apply (rows_follow_targets grn_two_targets adata (None : option Z) 2
           (LStr "tf") (LStr "gene") None 1 true []); reflexivity.
Defined.

Lemma no_threshold_no_skip_witness :
  pd.getitem (table grn_two_targets 0) (LStr "target") =
  Ok (VStr <$> pd.unique ["G"; "G"; "C"]).
Proof.
  apply (no_threshold_no_skip grn_two_targets adata (None : option Z) 0
           (LStr "tf") (LStr "gene") None 1 true []);
    [lia | reflexivity..].
Defined.

Lemma fitted_targets_have_rows_witness :
  ∃ i, pd.at_ (table grn_two_targets 2) i (LStr "target") = Some (VStr "G").
Proof.
  eapply (fitted_targets_have_rows grn_two_targets adata (None : option Z)
            2 (LStr "tf") (LStr "gene") None 1 true [] _ ["G"; "G"; "C"]).
  - reflexivity.
  - reflexivity.
  - left.
  - reflexivity.
  - simpl. lia.
Defined.

Lemma n_regulators_counts_edges_witness :
  pd.at_ (table grn_unresolved 1) 0 (LStr "n_regulators") =
  Some (VInt (Z.of_nat
          (length (filter (fun e => e.2 = "G")
                     (zip ["A"; "Z"] ["G"; "G"]))))).
Proof.
  apply (n_regulators_counts_edges grn_unresolved adata (None : option Z) 1
           (LStr "tf") (LStr "gene") None 1 true []); reflexivity.
Defined.

Lemma rows_have_enough_features_witness :
  (2 ≤ Z.of_nat (length (filter (fun v => v ∈ ["A"; "B"])
                           (var_index adata))))%Z.
Proof.
  apply (rows_have_enough_features grn_two_targets adata (None : option Z) 2
           (LStr "tf") (LStr "gene") None 1 true []
           (table grn_two_targets 2) 0); reflexivity.
Defined.

Lemma result_table_columns_witness :
  pd.columns (table grn 1) =
    [LStr "target"; LStr "r2"; LStr "mse"; LStr "n_cells";
     LStr "regulators"; LStr "n_regulators"] ∧
  pd.wf (table grn 1) ∧ (0 < pd.n_rows (table grn 1))%nat.
Proof.
  apply (result_table_columns grn adata (None : option Z) 1 (LStr "tf")
           (LStr "gene") None 1 true []). reflexivity.
Defined.

(** The target H of the network A→G, A→H is not a feature of [adata], its
    vector is empty, and the sample estimator refuses it: no table. *)
Lemma estimator_failure_aborts_batch_witness :
  returned (_compute_gene_expression_prediction grn_absent_target adata
              (None : option Z) 1 (LStr "tf") (LStr "gene") None 4 true
              [1%nat; 1%nat]) = None.
Proof.
  eapply (estimator_failure_aborts_batch grn_absent_target adata
            (None : option Z) 1 (LStr "tf") (LStr "gene") None 4 true
            [1%nat; 1%nat] ["G"; "H"] "H").
  - reflexivity.
  - right. left.
  - reflexivity.
  - simpl. lia.
  - intros m0. reflexivity.
Defined.

(** With [min_regulators = 5] both targets of the network A→G, B→G, A→C are
    skipped. *)
Lemma all_skipped_raises_witness :
  _compute_gene_expression_prediction grn_two_targets adata
    (None : option Z) 5 (LStr "tf") (LStr "gene") None 1 true [] =
  Raise (KeyError (LStr "regulators")).
Proof.
  apply (all_skipped_raises grn_two_targets adata (None : option Z) 5
           (LStr "tf") (LStr "gene") None 1 true [] ["G"; "G"; "C"]).
  - reflexivity.
  - lia.
  - intros t Ht. rewrite !elem_of_cons in Ht.
    destruct Ht as [->|[->|[->|Ht]]]; [..|by inversion Ht];
      eexists _, _, _; (split; [reflexivity | simpl; lia]).
Defined.

Lemma table_independent_of_pool_witness :
  returned (_compute_gene_expression_prediction grn_two_targets adata
              (None : option Z) 1 (LStr "tf") (LStr "gene") None 1 true [])
  = returned (_compute_gene_expression_prediction grn_two_targets adata
                (Some 3) 1 (LStr "tf") (LStr "gene") None (-1) true
                [2%nat]).
Proof.
  apply (table_independent_of_pool (refits := mean_regressor_refits));
    [reflexivity | lia | lia].
Defined.

Lemma orchestrator_key_errors_witness :
  _compute_gene_expression_prediction grn adata (None : option Z) 1
    (LStr "source") (LStr "target") None 1 true [] =
  Raise (KeyError
           (if bool_decide (LStr "target" ∈ pd.columns grn)
            then LStr "source" else LStr "target")).
Proof.
  apply (orchestrator_key_errors grn adata (None : option Z) 1
           (LStr "source") (LStr "target") None 1 true []).
  - split.
    + exact (bool_decide_unpack (NoDup (pd.columns grn)) I).
    + repeat constructor.
  - simpl. lia.
  - lia.
  - left. exact (bool_decide_unpack (LStr "source" ∉ pd.columns grn) I).
Defined.

(** The run in place on the network with a column labelled [True]. *)
Lemma public_returns_only_in_place_witness :
  let written : pd.DataFrame (value Z) :=
    [ (LStr "target", [VStr "G"]); (LStr "r2", [VFloat 0]);
      (LStr "mse", [VFloat 9]); (LStr "n_cells", [VInt 2]);
      (LStr "regulators", [VArray ["A"; "B"]]) ] in
  let after : MuData Z :=
    {| mod_grn := mod_grn (store grn_true);
       mod_data := mod_data (store grn_true);
       uns := <[ "gene_expression_prediction" := written ]>
                (uns (store grn_true)) |} in
  true = true ∧ (None : option (pd.DataFrame (value Z))) = None ∧
  mod_grn after = mod_grn (store grn_true) ∧
  mod_data after = mod_data (store grn_true) ∧
  (∀ k, k ≠ "gene_expression_prediction" →
        uns after !! k = uns (store grn_true) !! k) ∧
  ∃ table, (LStr "n_regulators" ∉ pd.columns table) ∧
    uns after !! "gene_expression_prediction" = Some table.
Proof.
  intros written after.
  apply (public_returns_only_in_place (store grn_true) "grn" None "rna"
           (None : option Z) 1 1 true true [] after None).
  reflexivity.
Defined.

Lemma store_has_rna g : is_Some (mod_data (store g) !! "rna").
Proof. eexists. apply lookup_singleton_eq. Qed.

Lemma public_empty_network_witness :
  compute_gene_expression_prediction (store grn_target_empty) "grn" None
    "rna" (None : option Z) 1 1 true true [] =
  Ok ({| mod_grn := mod_grn (store grn_target_empty);
         mod_data := mod_data (store grn_target_empty);
         uns := <[ "gene_expression_prediction" := [] ]>
                  (uns (store grn_target_empty)) |},
      None).
Proof.
  apply (public_empty_network (store grn_target_empty) "grn" "rna"
           (None : option Z) 1 1 true [] grn_target_empty).
  - reflexivity.
  - apply store_has_rna.
  - split.
    + exact (bool_decide_unpack (NoDup (pd.columns grn_target_empty)) I).
    + repeat constructor.
  - reflexivity.
  - exact (bool_decide_unpack
             (LStr "target" ∈ pd.columns grn_target_empty) I).
  - lia.
Defined.

(** No edge of [grn_celltypes] is of the cell type NK. *)
Lemma public_unknown_celltype_witness :
  compute_gene_expression_prediction (store grn_celltypes) "grn" (Some "NK")
    "rna" (None : option Z) 1 1 true true [] =
  Ok ({| mod_grn := mod_grn (store grn_celltypes);
         mod_data := mod_data (store grn_celltypes);
         uns := <[ "gene_expression_prediction" := [] ]>
                  (uns (store grn_celltypes)) |},
      None).
Proof.
  apply (public_unknown_celltype (store grn_celltypes) "grn" "NK" "rna"
           (None : option Z) 1 1 true [] grn_celltypes ["T"; "B"]).
  - reflexivity.
  - apply store_has_rna.
  - split.
    + exact (bool_decide_unpack (NoDup (pd.columns grn_celltypes)) I).
    + repeat constructor.
  - exact (bool_decide_unpack (LStr "target" ∈ pd.columns grn_celltypes) I).
  - reflexivity.
  - exact (bool_decide_unpack ("NK" ∉ ["T"; "B"]) I).
  - lia.
Defined.

(** The network [grn_target] has no column ["celltype"]. *)
Lemma public_missing_celltype_column_witness :
  compute_gene_expression_prediction (store grn_target) "grn" (Some "T")
    "rna" (None : option Z) 1 1 true true [] =
  Raise (UndefinedVariableError "celltype").
Proof.
  apply (public_missing_celltype_column (store grn_target) "grn" "T" "rna"
           (None : option Z) 1 1 true [] grn_target).
  - reflexivity.
  - exact (bool_decide_unpack (LStr "celltype" ∉ pd.columns grn_target) I).
Defined.
